(** * devtime: the statistics engine of [server/app/models.py]

    A shallow embedding of the [User] and [CodingSession] models: the
    window aggregation [User.get_stats_between], the per-day entry point
    [User.get_stats_by_date], the range query [User.daywise_stats] and the
    status line [User.current_activity_message].

    Conventions of the embedding.
    - A naive [datetime] is the number of microseconds since
      0001-01-01T00:00:00, a [timedelta] is a signed number of microseconds;
      both are [Z].  Python normalises a timedelta into (days, seconds,
      microseconds) with 0 <= seconds < 86400 and 0 <= microseconds < 10^6,
      so the attribute [.seconds] is [td_seconds] below.  The values of
      the [db.DateTime] columns are naive; where the code combines them
      with an aware datetime, [pydatetime] keeps the two kinds apart.
    - A [date] is its proleptic Gregorian ordinal ([date.toordinal()]),
      1 for 0001-01-01; [date + timedelta(days=1)] is [fromordinal(ord+1)].
    - [round(x)] on a float is round-half-to-even.  Every float the code
      rounds is [n / 60] for an integer [n]; the quotient is either exactly
      a half-integer (representable) or at least 1/60 away from one, so the
      integer function [py_round_div] computes the same result.
    - A [defaultdict(int)] is a [gmap string Z] read with default 0. *)

From Stdlib Require Import ZArith List Bool Ascii String Lia.
From stdpp Require Import base gmap strings list fin_maps.
Import ListNotations.

Local Open Scope Z_scope.

(** ** Time arithmetic *)

Module Time.

Definition datetime := Z.
Definition timedelta := Z.

Definition us_per_second : Z := 1000000.
Definition seconds_per_day : Z := 86400.

(** [timedelta(seconds=n)], [timedelta(minutes=n)], [timedelta(days=n)] *)
Definition seconds (n : Z) : timedelta := n * us_per_second.
Definition minutes (n : Z) : timedelta := seconds (60 * n).
Definition hours (n : Z) : timedelta := minutes (60 * n).
Definition days (n : Z) : timedelta := seconds (seconds_per_day * n).

(** The attribute [timedelta.seconds]: the seconds field of the
    normalised triple, which drops both the days and the microseconds. *)
Definition td_seconds (td : timedelta) : Z :=
  (td / us_per_second) mod seconds_per_day.

(** The attribute [timedelta.days]. *)
Definition td_days (td : timedelta) : Z :=
  td / (us_per_second * seconds_per_day).

(** The attribute [timedelta.microseconds]. *)
Definition td_microseconds (td : timedelta) : Z :=
  td mod us_per_second.

(** [round(n / d)] for integers [n] and [d > 0]: nearest integer, ties
    to the even one. *)
Definition py_round_div (n d : Z) : Z :=
  let q := n / d in
  let r := n mod d in
  if 2 * r <? d then q
  else if d <? 2 * r then q + 1
  else if Z.even q then q else q + 1.

End Time.

Import Time.

(** ** The models *)

(** [class CodingSession(db.Model)] (the columns the statistics read). *)
Record CodingSession := mkSession {
  language : string;
  started_at : datetime;
  last_heartbeat_at : datetime;
  editor : string;
}.

(** [CodingSession.length] *)
Definition length_of (s : CodingSession) : timedelta :=
  last_heartbeat_at s - started_at s.

(** The dictionary built by [get_default_stats_template] and filled by
    [get_stats_between]. *)
Record Stats := mkStats {
  languages : gmap string Z;
  total : Z;
  editors : gmap string Z;
  idle_for : Z;
}.

(** [User.get_default_stats_template] *)
Definition get_default_stats_template : Stats :=
  {| languages := ∅; total := 0; editors := ∅; idle_for := 0 |}.

(** [d[k]] on a [defaultdict(int)] *)
Definition bucket (d : gmap string Z) (k : string) : Z :=
  default 0 (d !! k).

(** [d[k] += v] on a [defaultdict(int)] *)
Definition bucket_add (k : string) (v : Z) (d : gmap string Z) : gmap string Z :=
  <[k := bucket d k + v]> d.

(** [class User(db.Model)]: the JSONB column [statistics] (it has no
    default: NULL is [None], a stored dictionary is [Some]), the column
    [timezone] (NULL is [None]) and the [coding_sessions] backref, in
    table order. *)
Record User := mkUser {
  statistics : option (gmap string Stats);
  timezone : option string;
  coding_sessions : list CodingSession;
}.

(** ** The window aggregator *)

Section Aggregator.

(** [current_app.config["DEVTIME_ACCEPTABLE_BREAK_DURATION"]] *)
Variable allowed_break : timedelta.

(** The query of [get_stats_between]: the rows with
    [last_heartbeat_at > dt1] and [started_at < dt2], ascending by
    [started_at].  Rows with equal [started_at] keep their table order
    (the database leaves that order open). *)
Fixpoint insert_by_start (s : CodingSession) (l : list CodingSession)
  : list CodingSession :=
  match l with
  | [] => [s]
  | x :: l' =>
      if started_at s <? started_at x then s :: l
      else x :: insert_by_start s l'
  end.

Definition order_by_started_at (l : list CodingSession) : list CodingSession :=
  foldr insert_by_start [] l.

Definition in_window (dt1 dt2 : datetime) (s : CodingSession) : bool :=
  (dt1 <? last_heartbeat_at s) && (started_at s <? dt2).

Definition query_sessions (u : User) (dt1 dt2 : datetime) : list CodingSession :=
  order_by_started_at (List.filter (in_window dt1 dt2) (coding_sessions u)).

(** The clipped edges of a session. *)
Definition left_end (dt1 : datetime) (s : CodingSession) : datetime :=
  Z.max (started_at s) dt1.
Definition right_end (dt2 : datetime) (s : CodingSession) : datetime :=
  Z.min (last_heartbeat_at s) dt2.

(** What one iteration adds to [stats["idle_for"]]. *)
Definition idle_contribution (last_on_left l : datetime) : Z :=
  let idle_time := l - last_on_left in
  if allowed_break <? idle_time then py_round_div (td_seconds idle_time) 60
  else 0.

(** [duration]: what one iteration adds to the two buckets. *)
Definition duration (l r : datetime) : Z :=
  py_round_div (td_seconds (r - l + seconds 30)) 60.

(** The value of [stats["total"]] after the two assignments of one
    iteration: [total + n / 60], rounded. *)
Definition next_total (tot : Z) (last_on_left l r : datetime) : Z :=
  py_round_div
    (60 * tot
     + td_seconds (Z.max r last_on_left - Z.max l last_on_left + seconds 30))
    60.

(** The body of the [for] loop on the pair ([stats], [last_on_left]). *)
Definition scan_step (dt1 dt2 : datetime)
           (st : Stats * datetime) (s : CodingSession) : Stats * datetime :=
  let '(stats, last_on_left) := st in
  let l := left_end dt1 s in
  let r := right_end dt2 s in
  let d := duration l r in
  ({| languages := bucket_add (language s) d (languages stats);
      total := next_total (total stats) last_on_left l r;
      editors := bucket_add (editor s) d (editors stats);
      idle_for := idle_for stats + idle_contribution last_on_left l |},
   Z.max r last_on_left).

Definition scan (dt1 dt2 : datetime) (sessions : list CodingSession)
           (st : Stats * datetime) : Stats * datetime :=
  fold_left (scan_step dt1 dt2) sessions st.

(** The loop of [get_stats_between] on an already fetched session list. *)
Definition compute_window (dt1 dt2 : datetime)
           (sessions : list CodingSession) : Stats :=
  fst (scan dt1 dt2 sessions (get_default_stats_template, dt1)).

(** [User.get_stats_between].  [dt1] and [dt2] are the window as the
    loop sees it: naive UTC wall times, which is what the first two lines
    of the source make of datetimes that carry [ZoneInfo("UTC")], so that
    they compare with the naive column values. *)
Definition get_stats_between (u : User) (dt1 dt2 : datetime) : Stats :=
  compute_window dt1 dt2 (query_sessions u dt1 dt2).

End Aggregator.

(** ** Calendar dates *)

Module Calendar.

(** A [date] is its ordinal; [MINORDINAL] is 0001-01-01 and [MAXORDINAL]
    is 9999-12-31. *)
Definition date := Z.
Definition MINORDINAL : Z := 1.
Definition MAXORDINAL : Z := 3652059.

Definition is_leap (year : Z) : bool :=
  (year mod 4 =? 0) && (negb (year mod 100 =? 0) || (year mod 400 =? 0)).

Definition days_before_year (year : Z) : Z :=
  let y := year - 1 in y * 365 + y / 4 - y / 100 + y / 400.

Definition days_in_month_table (month : Z) : Z :=
  if month =? 2 then 28
  else if (month =? 4) || (month =? 6) || (month =? 9) || (month =? 11) then 30
  else 31.

Definition days_in_month (year month : Z) : Z :=
  if (month =? 2) && is_leap year then 29 else days_in_month_table month.

(** Days of the months before [month] in a common year. *)
Fixpoint days_before_month_table (month : nat) : Z :=
  match month with
  | O | S O => 0
  | S m => days_before_month_table m + days_in_month_table (Z.of_nat m)
  end.

Definition days_before_month (year month : Z) : Z :=
  days_before_month_table (Z.to_nat month)
  + (if (2 <? month) && is_leap year then 1 else 0).

(** [date(year, month, day).toordinal()] *)
Definition ymd2ord (year month day : Z) : date :=
  days_before_year year + days_before_month year month + day.

Definition DI400Y : Z := days_before_year 401.
Definition DI100Y : Z := days_before_year 101.
Definition DI4Y : Z := days_before_year 5.

(** [date.fromordinal(n)] as (year, month, day). *)
Definition ord2ymd (ordinal : date) : Z * Z * Z :=
  let n := ordinal - 1 in
  let n400 := n / DI400Y in
  let n := n mod DI400Y in
  let year := n400 * 400 + 1 in
  let n100 := n / DI100Y in
  let n := n mod DI100Y in
  let n4 := n / DI4Y in
  let n := n mod DI4Y in
  let n1 := n / 365 in
  let n := n mod 365 in
  let year := year + n100 * 100 + n4 * 4 + n1 in
  if (n1 =? 4) || (n100 =? 4) then (year - 1, 12, 31)
  else
    let leapyear := (n1 =? 3) && (negb (n4 =? 24) || (n100 =? 3)) in
    let month := Z.shiftr (n + 50) 5 in
    let preceding :=
      days_before_month_table (Z.to_nat month)
      + (if (2 <? month) && leapyear then 1 else 0) in
    if n <? preceding then
      let month' := month - 1 in
      let preceding' :=
        preceding
        - (days_in_month_table month'
           + (if (month' =? 2) && leapyear then 1 else 0)) in
      (year, month', n - preceding' + 1)
    else (year, month, n - preceding + 1).

Definition year_of (d : date) : Z := fst (fst (ord2ymd d)).
Definition month_of (d : date) : Z := snd (fst (ord2ymd d)).
Definition day_of (d : date) : Z := snd (ord2ymd d).

(** [datetime(year, month, day, hh, mm, ss)] as a naive wall time. *)
Definition datetime_of (d : date) (hh mm ss : Z) : datetime :=
  days (d - 1) + hours hh + minutes mm + seconds ss.

End Calendar.

Import Calendar.

(** ** Formatting *)

Module Format.

Definition digit (n : Z) : ascii := ascii_of_N (48 + Z.to_N (n mod 10)).

Fixpoint decimal_go (fuel : nat) (n : Z) (acc : string) : string :=
  let acc' := String (digit n) acc in
  match fuel with
  | O => acc'
  | S fuel' => if n <? 10 then acc' else decimal_go fuel' (n / 10) acc'
  end.

(** ["%d" % n] *)
Definition decimal (n : Z) : string :=
  if n <? 0 then String "-" (decimal_go (Z.to_nat (Z.log2 (- n))) (- n) "")
  else decimal_go (Z.to_nat (Z.log2 n)) n "".

(** ["%0wd" % n] for [n >= 0]: left padding with zeros to width [w]. *)
Fixpoint zero_pad (w : nat) (s : string) : string :=
  match w - String.length s with
  | O => s
  | S _ => match w with
           | O => s
           | S w' => String "0" (zero_pad w' s)
           end
  end%nat.

Definition decimal_padded (w : nat) (n : Z) : string :=
  zero_pad w (decimal n).

(** [d.strftime("%d-%m-%Y")], the key format of [daywise_stats].  For
    the years from 1000 on this is the text on every platform; below
    1000 the C library decides whether [%Y] is padded, and the model
    writes the four-digit form. *)
Definition strftime_dmY (d : date) : string :=
  decimal_padded 2 (day_of d) +:+ "-" +:+ decimal_padded 2 (month_of d)
  +:+ "-" +:+ decimal_padded 4 (year_of d).

(** [d.strftime("%d-%m-%YYYY")], the key format of [get_stats_by_date]:
    the directive [%Y] followed by the three literal characters YYY. *)
Definition strftime_dmYYYY (d : date) : string :=
  strftime_dmY d +:+ "YYY".

(** [str(td)] for a timedelta. *)
Definition str_timedelta (td : timedelta) : string :=
  let ss := td_seconds td mod 60 in
  let mm := (td_seconds td / 60) mod 60 in
  let hh := td_seconds td / 60 / 60 in
  let s := decimal hh +:+ ":" +:+ decimal_padded 2 mm +:+ ":" +:+ decimal_padded 2 ss in
  let s :=
    if td_days td =? 0 then s
    else decimal (td_days td) +:+ " day"
         +:+ (if Z.abs (td_days td) =? 1 then "" else "s") +:+ ", " +:+ s in
  if td_microseconds td =? 0 then s
  else s +:+ "." +:+ decimal_padded 6 (td_microseconds td).

End Format.

Import Format.

(** ** Exceptions and the user record as state *)

(** The exceptions the modelled methods can raise:
    [zoneinfo.ZoneInfoNotFoundError] from [ZoneInfo(key)], the
    [AssertionError] of [daywise_stats], the [OverflowError] of date and
    datetime arithmetic that leaves the years 1 to 9999, and the
    [TypeError] of an operation that mixes a naive and an aware datetime
    or that tests membership in [None]. *)
Inductive exception :=
| ZoneInfoNotFoundError (key : string)
| AssertionError (message : string)
| OverflowError
| TypeError.

Inductive outcome (A : Type) :=
| Return (a : A)
| Raise (e : exception).

Arguments Return {A} a.
Arguments Raise {A} e.

(** A method of [User]: it reads [self], may update it, and either
    returns or raises. *)
Definition method (A : Type) : Type := User -> outcome A * User.

Definition ret {A} (a : A) : method A := fun u => (Return a, u).
Definition raise {A} (e : exception) : method A := fun u => (Raise e, u).
Definition self : method User := fun u => (Return u, u).
Definition bind {A B} (m : method A) (k : A -> method B) : method B :=
  fun u =>
    match m u with
    | (Return a, u') => k a u'
    | (Raise e, u') => (Raise e, u')
    end.

Notation "'let!' x ':=' m 'in' k" := (bind m (fun x => k))
  (at level 10, x name, m at level 100, k at level 200).

(** The value a call returns, if it returns, and the user after it. *)
Definition returned {A} (r : outcome A * User) : option A :=
  match fst r with
  | Return a => Some a
  | Raise _ => None
  end.
Definition user_after {A} (r : outcome A * User) : User := snd r.

(** ** The daily compiler *)

(** A time zone, as far as the code uses it: the UTC offset of a naive
    local wall time ([tzinfo.utcoffset], fold 0). *)
Definition tzinfo := datetime -> timedelta.

(** [datetime(..., tzinfo=tz).astimezone(ZoneInfo("UTC"))], then read as
    a UTC instant. *)
Definition astimezone_utc (tz : tzinfo) (local : datetime) : datetime :=
  local - tz local.

(** [datetime.min] and [datetime.max]: 0001-01-01T00:00:00 and
    9999-12-31T23:59:59.999999. *)
Definition MINDATETIME : datetime := 0.
Definition MAXDATETIME : datetime := days MAXORDINAL - 1.

Definition valid_datetime (t : datetime) : Prop :=
  MINDATETIME <= t <= MAXDATETIME.

Definition valid_datetimeb (t : datetime) : bool :=
  (MINDATETIME <=? t) && (t <=? MAXDATETIME).

(** [datetime(..., tzinfo=tz).astimezone(utc_tz)]: the subtraction of the
    offset raises [OverflowError] when the UTC instant is not a
    [datetime]; otherwise the result is [astimezone_utc]. *)
Definition astimezone (tz : tzinfo) (local : datetime) : method datetime :=
  if valid_datetimeb (astimezone_utc tz local)
  then ret (astimezone_utc tz local)
  else raise OverflowError.

(** [date_str in self.statistics] followed by [self.statistics[date_str]]:
    the membership test raises [TypeError] on a NULL column. *)
Definition cache_get (date_str : string) : method (option Stats) :=
  fun u =>
    match statistics u with
    | None => (Raise TypeError, u)
    | Some cache => (Return (cache !! date_str), u)
    end.

Section Daily.

Variable allowed_break : timedelta.

(** The time zone database behind [ZoneInfo(key)]; [None] is the key the
    constructor rejects.  It rejects an unknown key with
    [ZoneInfoNotFoundError] (and a key that is not a normalised relative
    path with [ValueError]; the model has one exception for both). *)
Variable zoneinfo : string -> option tzinfo.

Definition ZoneInfo (key : string) : method tzinfo :=
  match zoneinfo key with
  | Some tz => ret tz
  | None => raise (ZoneInfoNotFoundError key)
  end.

(** [self.timezone or "UTC"]: [None] and the empty string are falsy. *)
Definition timezone_or_utc (tz : option string) : string :=
  match tz with
  | None => "UTC"
  | Some EmptyString => "UTC"
  | Some key => key
  end.

(** [User.get_stats_by_date] *)
Definition get_stats_by_date (stats_date : date) (use_cache : bool)
  : method Stats :=
  let date_str := strftime_dmYYYY stats_date in
  let! u := self in
  let! hit := (if use_cache then cache_get date_str else ret None) in
  match hit with
  | Some cached => ret cached
  | None =>
      let! user_tz := ZoneInfo (timezone_or_utc (timezone u)) in
      let! utc_tz := ZoneInfo "UTC" in
      let! start_time_utc :=
        astimezone user_tz (datetime_of stats_date 0 0 0) in
      let! end_time_utc :=
        astimezone user_tz (datetime_of stats_date 23 59 59) in
      ret (get_stats_between allowed_break u start_time_utc end_time_utc)
  end.

(** [current_date + timedelta(days=1)] *)
Definition date_add_day (d : date) : method date :=
  if d + 1 <=? MAXORDINAL then ret (d + 1) else raise OverflowError.

(** The [while] loop of [daywise_stats]; [fuel] bounds the iterations. *)
Fixpoint daywise_loop (fuel : nat) (current_date end_ : date)
         (stats : gmap string Stats) : method (gmap string Stats) :=
  if current_date <=? end_ then
    match fuel with
    | O => ret stats
    | S fuel' =>
        let! day_after_current := date_add_day current_date in
        let! day_stats := get_stats_by_date current_date true in
        daywise_loop fuel' day_after_current end_
                     (<[strftime_dmY current_date := day_stats]> stats)
    end
  else ret stats.

(** The number of days from [start] to [end_] inclusive: as many
    iterations as the loop can make. *)
Definition days_between (start end_ : date) : nat :=
  Z.to_nat (end_ - start + 1).

(** [User.daywise_stats] *)
Definition daywise_stats (start : date) (end_ : option date)
  : method (gmap string Stats) :=
  let end_ := match end_ with None => start | Some e => e end in
  if start <=? end_ then
    daywise_loop (days_between start end_) start end_ ∅
  else
    raise (AssertionError
             "End date must be greater than or equal to start date").

End Daily.

(** ** The current activity *)

(** [User.last_session]: the row with the greatest [last_heartbeat_at]
    (the first such row in table order), [None] without rows. *)
Definition later_of (best : option CodingSession) (s : CodingSession)
  : option CodingSession :=
  match best with
  | None => Some s
  | Some b =>
      if last_heartbeat_at b <? last_heartbeat_at s then Some s else Some b
  end.

Definition last_session (u : User) : option CodingSession :=
  fold_left later_of (coding_sessions u) None.

Definition message_no_data : string :=
  "It seems you haven't connected DevTime to your editors yet!".

Definition message_coding (s : CodingSession) : string :=
  "You're writing code right now! Time spent coding: "
  +:+ str_timedelta (length_of s) +:+ ", Language: " +:+ language s.

Definition message_idle (s : CodingSession) : string :=
  "You're idle right now. Just before that, you wrote "
  +:+ language s +:+ " code for: " +:+ str_timedelta (length_of s).

Definition message_away (since_last_hb : timedelta) : string :=
  "You're currently not writing any code. It's been "
  +:+ str_timedelta since_last_hb +:+ " since you last coded.".

(** A Python [datetime] with its awareness.  The [db.DateTime] columns
    are declared without [timezone=True]: the values loaded from them are
    naive (UTC wall clock), which is also what the first two lines of
    [get_stats_between] turn its window into.  [datetime.now(timezone.utc)]
    is aware. *)
Inductive pydatetime :=
| Naive (wall : datetime)
| Aware (utc : datetime).

(** [a - b] on datetimes: defined between two naive or two aware values,
    a [TypeError] otherwise. *)
Definition pydatetime_sub (a b : pydatetime) : outcome timedelta :=
  match a, b with
  | Naive x, Naive y => Return (x - y)
  | Aware x, Aware y => Return (x - y)
  | _, _ => Raise TypeError
  end.

(** The [if]/[elif]/[else] chain of [current_activity_message] once
    [since_last_hb] is there. *)
Definition activity_message (last_coding_session : CodingSession)
           (since_last_hb : timedelta) : string :=
  if since_last_hb <? seconds 60 then message_coding last_coding_session
  else if since_last_hb <? minutes 5 then message_idle last_coding_session
  else message_away since_last_hb.

(** [User.current_activity_message]; [now] is the instant that
    [datetime.now(timezone.utc)] reads. *)
Definition current_activity_message (now : datetime) (u : User)
  : outcome string :=
  match last_session u with
  | None => Return message_no_data
  | Some last_coding_session =>
      match pydatetime_sub (Aware now)
                           (Naive (last_heartbeat_at last_coding_session)) with
      | Return since_last_hb =>
          Return (activity_message last_coding_session since_last_hb)
      | Raise e => Raise e
      end
  end.

(** ** Vocabulary of the statements *)

(** Every figure of a summary is non-negative. *)
Definition nonneg_stats (s : Stats) : Prop :=
  0 <= idle_for s /\ 0 <= total s
  /\ map_Forall (fun _ v => 0 <= v) (languages s)
  /\ map_Forall (fun _ v => 0 <= v) (editors s).

(** Ascending by [started_at]. *)
Fixpoint ascending (l : list CodingSession) : Prop :=
  match l with
  | [] => True
  | s :: rest =>
      (forall x, In x rest -> started_at s <= started_at x) /\ ascending rest
  end.

(** The idle minutes a scan adds, gap by gap, when it starts with the
    covered edge at [last_on_left]. *)
Fixpoint idle_gaps (allowed_break : timedelta) (dt1 dt2 : datetime)
         (last_on_left : datetime) (sessions : list CodingSession) : Z :=
  match sessions with
  | [] => 0
  | s :: rest =>
      idle_contribution allowed_break last_on_left (left_end dt1 s)
      + idle_gaps allowed_break dt1 dt2
                  (Z.max (right_end dt2 s) last_on_left) rest
  end.

(** ** Example data *)

(** Wall-clock instants of 2023-01-15, and the user who owns a given
    session table, with an empty dictionary in [statistics]. *)
Definition example_day : date := ymd2ord 2023 1 15.
Definition clock (hh mm ss : Z) : datetime := datetime_of example_day hh mm ss.
Definition user_with (sessions : list CodingSession) : User :=
  {| statistics := Some ∅; timezone := None; coding_sessions := sessions |}.

(** Sessions of 90 and of 89 seconds. *)
Definition session_90s : CodingSession :=
  mkSession "Python" (clock 10 0 0) (clock 10 1 30) "vim".
Definition session_89s : CodingSession :=
  mkSession "Python" (clock 10 0 0) (clock 10 1 29) "vim".

(** A malformed session: the last heartbeat is 10 minutes before the
    start. *)
Definition session_backwards : CodingSession :=
  mkSession "Python" (clock 10 10 0) (clock 10 0 0) "vim".

(** Two sessions five minutes apart, and a later one that starts
    6 minutes 30.5 seconds after the first ends. *)
Definition session_first : CodingSession :=
  mkSession "Python" (clock 10 0 0) (clock 10 10 0) "vim".
Definition session_after_5min : CodingSession :=
  mkSession "Python" (clock 10 15 0) (clock 10 20 0) "vim".


(** A session half an hour into a window that opens at 10:00. *)
Definition session_late : CodingSession :=
  mkSession "Python" (clock 10 30 0) (clock 10 40 0) "vim".

(** Overlapping sessions: half an hour with ten minutes inside it, and
    forty seconds with ten seconds inside them. *)
Definition session_half_hour : CodingSession :=
  mkSession "Python" (clock 10 0 0) (clock 10 30 0) "vim".
Definition session_inside_half_hour : CodingSession :=
  mkSession "Go" (clock 10 10 0) (clock 10 20 0) "vscode".
Definition session_40s : CodingSession :=
  mkSession "Python" (clock 10 0 0) (clock 10 0 40) "vim".
Definition session_inside_40s : CodingSession :=
  mkSession "Go" (clock 10 0 10) (clock 10 0 20) "vscode".

(** A time zone database with two keys, and the user record with
    another [timezone] column. *)
Definition example_zoneinfo (key : string) : option tzinfo :=
  if String.eqb key "UTC" then Some (fun _ => 0)
  else if String.eqb key "Asia/Kolkata" then Some (fun _ => minutes 330)
  else None.

Definition with_timezone (tz : option string) (u : User) : User :=
  {| statistics := statistics u;
     timezone := tz;
     coding_sessions := coding_sessions u |}.

(** ** Vocabulary of the further properties *)

(** The minutes a session adds to its buckets in the window. *)
Definition session_minutes (dt1 dt2 : datetime) (s : CodingSession) : Z :=
  duration (left_end dt1 s) (right_end dt2 s).

(** The sum of [f] over a list of sessions. *)
Definition sum_over (f : CodingSession -> Z) (l : list CodingSession) : Z :=
  foldr (fun s acc => f s + acc) 0 l.

(** The sum of all values of a dictionary. *)
Definition sum_values (d : gmap string Z) : Z :=
  map_fold (fun _ v acc => v + acc) 0 d.

(** A session outside the window, and a user record with another
    [statistics] column. *)
Definition session_evening : CodingSession :=
  mkSession "Python" (clock 20 0 0) (clock 21 0 0) "vim".

Definition with_statistics (cache : gmap string Stats) (u : User) : User :=
  {| statistics := Some cache;
     timezone := timezone u;
     coding_sessions := coding_sessions u |}.

(** The length a session adds to the stretch covered so far, and the
    whole seconds of these lengths summed over a scan that starts with
    the covered edge at [last_on_left]. *)
Definition fresh_cover (last_on_left l r : datetime) : timedelta :=
  Z.max r last_on_left - Z.max l last_on_left.

Fixpoint covered_seconds (dt1 dt2 : datetime) (last_on_left : datetime)
         (sessions : list CodingSession) : Z :=
  match sessions with
  | [] => 0
  | s :: rest =>
      fresh_cover last_on_left (left_end dt1 s) (right_end dt2 s)
      / us_per_second
      + covered_seconds dt1 dt2 (Z.max (right_end dt2 s) last_on_left) rest
  end.

(** A session that spans the whole of 2023-01-15 and more. *)
Definition session_all_day : CodingSession :=
  mkSession "Python" (clock 0 0 0 - hours 1) (clock 23 59 59 + hours 1) "vim".

(** The last character of a string. *)
Fixpoint last_char (s : string) : option ascii :=
  match s with
  | EmptyString => None
  | String c rest =>
      match last_char rest with
      | None => Some c
      | Some c' => Some c'
      end
  end.

(** The user record with one more row in the session table, and a
    session in the last second of 2023-01-15. *)
Definition add_session (s : CodingSession) (u : User) : User :=
  {| statistics := statistics u;
     timezone := timezone u;
     coding_sessions := s :: coding_sessions u |}.

Definition session_last_second : CodingSession :=
  mkSession "Python" (clock 23 59 59) (clock 23 59 59 + seconds 1) "vim".

(** * Properties *)

(** ** Arithmetic of [timedelta.seconds] and [round] *)

Section Arithmetic.

Lemma td_seconds_range (td : timedelta) :
  0 <= td_seconds td < seconds_per_day.
Proof.
  unfold td_seconds, seconds_per_day. apply Z.mod_pos_bound. lia.
Qed.

(** Below one day and not negative, [.seconds] is the length in whole
    seconds. *)
Lemma td_seconds_small (td : timedelta) :
  0 <= td < days 1 -> td_seconds td = td / us_per_second.
Proof.
  unfold td_seconds, days, seconds, seconds_per_day, us_per_second.
  intros [Hlo Hhi]. apply Z.mod_small. split.
  - apply Z.div_pos; lia.
  - apply Z.div_lt_upper_bound; lia.
Qed.

(** Negative by at most one day, [.seconds] wraps around the day. *)
Lemma td_seconds_negative (td : timedelta) :
  - days 1 <= td < 0 ->
  td_seconds td = seconds_per_day + td / us_per_second.
Proof.
  unfold td_seconds, days, seconds, seconds_per_day, us_per_second.
  intros [Hlo Hhi].
  assert (Hq : -86400 <= td / 1000000 < 0).
  { split.
    - apply Z.div_le_lower_bound; lia.
    - apply Z.div_lt_upper_bound; lia. }
  symmetry. apply Z.mod_unique with (q := -1); lia.
Qed.

Lemma td_seconds_of_seconds (n : Z) :
  td_seconds (seconds n) = n mod seconds_per_day.
Proof.
  unfold td_seconds, seconds, us_per_second.
  now rewrite Z.div_mul by lia.
Qed.

(** [py_round_div n 60] is a nearest integer to n/60. *)
Lemma py_round_div_nearest (n : Z) :
  60 * py_round_div n 60 - 30 <= n <= 60 * py_round_div n 60 + 30.
Proof.
  unfold py_round_div.
  pose proof (Z.div_mod n 60 ltac:(lia)) as Hdm.
  pose proof (Z.mod_pos_bound n 60 ltac:(lia)) as Hr.
  destruct (2 * (n mod 60) <? 60) eqn:E1;
    [apply Z.ltb_lt in E1; lia | apply Z.ltb_ge in E1].
  destruct (60 <? 2 * (n mod 60)) eqn:E2;
    [apply Z.ltb_lt in E2; lia | apply Z.ltb_ge in E2].
  destruct (Z.even (n / 60)); lia.
Qed.

Lemma py_round_div_nonneg (n : Z) : 0 <= n -> 0 <= py_round_div n 60.
Proof.
  intros Hn. pose proof (py_round_div_nearest n) as [_ Hup].
  unfold py_round_div in *.
  assert (0 <= n / 60) by (apply Z.div_pos; lia).
  repeat match goal with |- context [if ?b then _ else _] => destruct b end; lia.
Qed.

(** Away from a tie the result is monotone enough: more than half a
    minute rounds to at least one. *)
Lemma py_round_div_positive (n : Z) : 30 < n -> 0 < py_round_div n 60.
Proof.
  intros Hn. pose proof (py_round_div_nearest n). lia.
Qed.

(** Adding exactly half a minute to a whole number of minutes: ties go to
    the even neighbour. *)
Lemma py_round_div_half (t : Z) :
  py_round_div (60 * t + 30) 60 = if Z.even t then t else t + 1.
Proof.
  unfold py_round_div.
  replace ((60 * t + 30) / 60) with t
    by (apply Z.div_unique with (r := 30); lia).
  replace ((60 * t + 30) mod 60) with 30
    by (apply Z.mod_unique with (q := t); lia).
  reflexivity.
Qed.

End Arithmetic.

(** ** Buckets *)

Section Buckets.

Implicit Types (d : gmap string Z) (k : string) (v : Z).

Lemma bucket_empty k : bucket ∅ k = 0.
Proof. unfold bucket. now rewrite lookup_empty. Qed.

Lemma bucket_add_same k v d : bucket (bucket_add k v d) k = bucket d k + v.
Proof. unfold bucket_add, bucket at 1. now rewrite lookup_insert_eq. Qed.

Lemma bucket_add_other k k' v d :
  k <> k' -> bucket (bucket_add k v d) k' = bucket d k'.
Proof.
  intros Hne. unfold bucket_add, bucket at 1.
  now rewrite lookup_insert_ne.
Qed.

Lemma bucket_nonneg d k :
  map_Forall (fun _ v => 0 <= v) d -> 0 <= bucket d k.
Proof.
  intros Hall. unfold bucket.
  destruct (d !! k) as [v|] eqn:E; simpl; [|lia].
  exact (Hall k v E).
Qed.

Lemma bucket_add_nonneg k v d :
  0 <= v ->
  map_Forall (fun _ v => 0 <= v) d ->
  map_Forall (fun _ v => 0 <= v) (bucket_add k v d).
Proof.
  intros Hv Hall. unfold bucket_add.
  apply map_Forall_insert_2; [|exact Hall].
  pose proof (bucket_nonneg d k Hall). lia.
Qed.

End Buckets.

(** ** The scan, one step at a time *)

Section Scan.

Variable allowed_break : timedelta.
Variables dt1 dt2 : datetime.

Lemma scan_cons (s : CodingSession) (rest : list CodingSession)
      (st : Stats * datetime) :
  scan allowed_break dt1 dt2 (s :: rest) st
  = scan allowed_break dt1 dt2 rest (scan_step allowed_break dt1 dt2 st s).
Proof. reflexivity. Qed.

Lemma duration_nonneg (l r : datetime) : 0 <= duration l r.
Proof.
  unfold duration. apply py_round_div_nonneg.
  apply td_seconds_range.
Qed.

Lemma idle_contribution_nonneg (last_on_left l : datetime) :
  0 <= idle_contribution allowed_break last_on_left l.
Proof.
  unfold idle_contribution.
  destruct (allowed_break <? l - last_on_left); [|lia].
  apply py_round_div_nonneg, td_seconds_range.
Qed.

Lemma next_total_nonneg (tot : Z) (last_on_left l r : datetime) :
  0 <= tot -> 0 <= next_total tot last_on_left l r.
Proof.
  intros Htot. unfold next_total. apply py_round_div_nonneg.
  pose proof (td_seconds_range
                (Z.max r last_on_left - Z.max l last_on_left + seconds 30)).
  lia.
Qed.

Lemma scan_step_nonneg (st : Stats * datetime) (s : CodingSession) :
  nonneg_stats (fst st) ->
  nonneg_stats (fst (scan_step allowed_break dt1 dt2 st s)).
Proof.
  destruct st as [stats last]. simpl.
  intros (Hidle & Htot & Hlang & Hed).
  repeat split; simpl.
  - pose proof (idle_contribution_nonneg last (left_end dt1 s)). lia.
  - now apply next_total_nonneg.
  - apply bucket_add_nonneg; [apply duration_nonneg | exact Hlang].
  - apply bucket_add_nonneg; [apply duration_nonneg | exact Hed].
Qed.

Lemma scan_nonneg (sessions : list CodingSession) :
  forall st, nonneg_stats (fst st) ->
             nonneg_stats (fst (scan allowed_break dt1 dt2 sessions st)).
Proof.
  induction sessions as [|s rest IH]; intros st Hst.
  - exact Hst.
  - rewrite scan_cons. apply IH. now apply scan_step_nonneg.
Qed.

Lemma default_stats_nonneg : nonneg_stats get_default_stats_template.
Proof.
  repeat split; simpl; try lia; apply map_Forall_empty.
Qed.

(** The idle figure is the sum of the per-gap contributions. *)
Lemma scan_idle_for (sessions : list CodingSession) :
  forall stats last_on_left,
    idle_for (fst (scan allowed_break dt1 dt2 sessions (stats, last_on_left)))
    = idle_for stats
      + idle_gaps allowed_break dt1 dt2 last_on_left sessions.
Proof.
  induction sessions as [|s rest IH]; intros stats last.
  - simpl. lia.
  - rewrite scan_cons. unfold scan_step at 1. rewrite IH. simpl. lia.
Qed.

End Scan.

(** ** The session query *)

Section Query.

Implicit Types (s : CodingSession) (l : list CodingSession).

Lemma insert_by_start_In s x l :
  In x (insert_by_start s l) <-> x = s \/ In x l.
Proof.
  induction l as [|y l IH]; simpl.
  - intuition.
  - destruct (started_at s <? started_at y); simpl; [intuition|].
    rewrite IH. intuition.
Qed.

Lemma order_by_started_at_In x l :
  In x (order_by_started_at l) <-> In x l.
Proof.
  unfold order_by_started_at. induction l as [|y l IH]; simpl.
  - tauto.
  - rewrite insert_by_start_In, IH. intuition.
Qed.

Lemma insert_by_start_ascending s l :
  ascending l -> ascending (insert_by_start s l).
Proof.
  induction l as [|y l IH]; simpl.
  - intros _. split; [intros x []|exact I].
  - intros [Hy Hl]. destruct (started_at s <? started_at y) eqn:E.
    + apply Z.ltb_lt in E. simpl. split; [|split; assumption].
      intros x [-> | Hx]; [lia|]. specialize (Hy x Hx). lia.
    + apply Z.ltb_ge in E. simpl. split; [|now apply IH].
      intros x Hx. apply insert_by_start_In in Hx as [-> | Hx];
        [exact E | now apply Hy].
Qed.

Lemma order_by_started_at_ascending l : ascending (order_by_started_at l).
Proof.
  unfold order_by_started_at. induction l as [|y l IH]; simpl.
  - exact I.
  - now apply insert_by_start_ascending.
Qed.

(** The query returns, in ascending order of [started_at], exactly the
    rows of the user that reach into the window. *)
Lemma query_sessions_spec (u : User) (dt1 dt2 : datetime) :
  ascending (query_sessions u dt1 dt2)
  /\ forall s,
      In s (query_sessions u dt1 dt2)
      <-> In s (coding_sessions u)
          /\ dt1 < last_heartbeat_at s /\ started_at s < dt2.
Proof.
  unfold query_sessions. split; [apply order_by_started_at_ascending|].
  intros s. rewrite order_by_started_at_In, filter_In.
  unfold in_window. rewrite andb_true_iff, !Z.ltb_lt. tauto.
Qed.

End Query.

(** ** Non-negativity (C9) *)

(** C9. For every window, every session table and every acceptable break,
    the summary returned by [get_stats_between] has [idle_for >= 0],
    [total >= 0], and every value stored in [languages] and in [editors]
    is [>= 0]. *)
Theorem get_stats_between_nonneg
        (allowed_break : timedelta) (u : User) (dt1 dt2 : datetime) :
  0 <= idle_for (get_stats_between allowed_break u dt1 dt2)
  /\ 0 <= total (get_stats_between allowed_break u dt1 dt2)
  /\ map_Forall (fun _ v => 0 <= v)
                (languages (get_stats_between allowed_break u dt1 dt2))
  /\ map_Forall (fun _ v => 0 <= v)
                (editors (get_stats_between allowed_break u dt1 dt2)).
Proof.
  unfold get_stats_between, compute_window.
  exact (scan_nonneg allowed_break dt1 dt2
           (query_sessions u dt1 dt2)
           (get_default_stats_template, dt1) default_stats_nonneg).
Qed.

(** ** Duration rounding (C2) *)

Section Duration.

Variable allowed_break : timedelta.
Variables dt1 dt2 : datetime.

(** One iteration adds [duration] to the session's two buckets and
    leaves every other bucket alone. *)
Lemma scan_step_buckets (stats : Stats) (last_on_left : datetime)
      (s : CodingSession) :
  bucket (languages (fst (scan_step allowed_break dt1 dt2
                                    (stats, last_on_left) s)))
         (language s)
  = bucket (languages stats) (language s)
    + duration (left_end dt1 s) (right_end dt2 s)
  /\ bucket (editors (fst (scan_step allowed_break dt1 dt2
                                     (stats, last_on_left) s)))
            (editor s)
     = bucket (editors stats) (editor s)
       + duration (left_end dt1 s) (right_end dt2 s).
Proof.
  simpl. split; apply bucket_add_same.
Qed.

(** For a clipped length that is not negative and stays below a day once
    the half minute is added, [duration] is the length in whole seconds
    plus 30, over 60, rounded half to even. *)
Lemma duration_small (l r : datetime) :
  0 <= r - l -> r - l + seconds 30 < days 1 ->
  duration l r = py_round_div ((r - l) / us_per_second + 30) 60.
Proof.
  intros Hlo Hhi. unfold duration.
  rewrite td_seconds_small by (unfold seconds, us_per_second in *; lia).
  f_equal. unfold seconds, us_per_second. apply Z.div_add. lia.
Qed.

End Duration.

(** C2 (as amended). For every session whose clipped length is not
    negative and, with the half minute added, below one day, the minutes
    added to its language bucket and to its editor bucket are
    round-half-to-even((whole seconds of the clipped length + 30) / 60).
    A clipped length of exactly 90 seconds adds 2 minutes, and one of
    exactly 89 seconds adds 2 minutes as well (119/60 rounds up). *)
Theorem duration_rounding
        (allowed_break : timedelta) (dt1 dt2 : datetime)
        (stats : Stats) (last_on_left : datetime) (s : CodingSession) :
  0 <= right_end dt2 s - left_end dt1 s ->
  right_end dt2 s - left_end dt1 s + seconds 30 < days 1 ->
  let stats' := fst (scan_step allowed_break dt1 dt2 (stats, last_on_left) s) in
  let added :=
    py_round_div ((right_end dt2 s - left_end dt1 s) / us_per_second + 30) 60 in
  bucket (languages stats') (language s)
  = bucket (languages stats) (language s) + added
  /\ bucket (editors stats') (editor s)
     = bucket (editors stats) (editor s) + added
  /\ (right_end dt2 s - left_end dt1 s = seconds 90 -> added = 2)
  /\ (right_end dt2 s - left_end dt1 s = seconds 89 -> added = 2).
Proof.
  intros Hlo Hhi stats' added.
  destruct (scan_step_buckets allowed_break dt1 dt2 stats last_on_left s)
    as [Hlang Hed].
  rewrite (duration_small _ _ Hlo Hhi) in Hlang, Hed.
  repeat split; try assumption.
  - intros H90. subst added. rewrite H90. reflexivity.
  - intros H89. subst added. rewrite H89. reflexivity.
Qed.

(** The theorem at the 89-second session, in the window of its day. *)
Lemma duration_rounding_witness :
  bucket (languages
            (fst (scan_step (minutes 5) (clock 0 0 0) (clock 23 59 59)
                            (get_default_stats_template, clock 0 0 0)
                            session_89s)))
         "Python" = 2.
Proof.
  refine (proj1 (duration_rounding (minutes 5) (clock 0 0 0) (clock 23 59 59)
                   get_default_stats_template (clock 0 0 0) session_89s _ _)).
  - vm_compute. discriminate.
  - vm_compute. reflexivity.
Defined.

(** C2, the claim as stated fails: a session of exactly 89 seconds,
    alone in the window of its day, puts 2 minutes (not 1) into its
    language and editor buckets. *)
Lemma duration_89_seconds_is_2_minutes :
  right_end (clock 23 59 59) session_89s - left_end (clock 0 0 0) session_89s
  = seconds 89
  /\ bucket (languages (get_stats_between (minutes 5) (user_with [session_89s])
                                          (clock 0 0 0) (clock 23 59 59)))
            "Python" = 2
  /\ bucket (editors (get_stats_between (minutes 5) (user_with [session_89s])
                                        (clock 0 0 0) (clock 23 59 59)))
            "vim" = 2.
Proof. vm_compute. repeat split. Qed.

(** A session of exactly 90 seconds gives 2 minutes. *)
Example duration_90_seconds :
  bucket (languages (get_stats_between (minutes 5) (user_with [session_90s])
                                       (clock 0 0 0) (clock 23 59 59)))
         "Python" = 2.
Proof. vm_compute. reflexivity. Qed.

(** ** Sessions that end before they start (C10) *)

(** C10. [get_stats_between] is a total function: it has no failure
    path, whatever the sessions are.  For a session whose clipped right
    edge precedes its clipped left edge by more than 30 seconds, the
    minutes added to its language and editor buckets are computed from
    the seconds field of the negative timedelta, that is from the signed
    length (plus the half minute) taken modulo 24 hours; down to a day
    back this is 86400 plus the (negative) number of whole seconds, and
    the result is not clamped to zero as long as more than 30 seconds of
    the day remain.  A session ending 10 minutes before it starts adds
    round(85830/60) = 1430 minutes to its language and editor buckets. *)
Theorem malformed_session_duration
        (allowed_break : timedelta) (dt1 dt2 : datetime)
        (stats : Stats) (last_on_left : datetime) (s : CodingSession) :
  right_end dt2 s - left_end dt1 s + seconds 30 < 0 ->
  let stats' := fst (scan_step allowed_break dt1 dt2 (stats, last_on_left) s) in
  let d := right_end dt2 s - left_end dt1 s + seconds 30 in
  let added := py_round_div ((d / us_per_second) mod seconds_per_day) 60 in
  bucket (languages stats') (language s)
  = bucket (languages stats) (language s) + added
  /\ bucket (editors stats') (editor s)
     = bucket (editors stats) (editor s) + added
  /\ (- days 1 <= d ->
      added = py_round_div (seconds_per_day + d / us_per_second) 60)
  /\ (- seconds 86369 <= d -> 0 < added)
  /\ bucket (languages
               (get_stats_between allowed_break (user_with [session_backwards])
                                  (clock 0 0 0) (clock 23 59 59)))
            "Python" = 1430
  /\ bucket (editors
               (get_stats_between allowed_break (user_with [session_backwards])
                                  (clock 0 0 0) (clock 23 59 59)))
            "vim" = 1430.
Proof.
  intros Hneg stats' d added.
  destruct (scan_step_buckets allowed_break dt1 dt2 stats last_on_left s)
    as [Hlang Hed].
  repeat split.
  - exact Hlang.
  - exact Hed.
  - intros Hday. subst added. f_equal.
    fold (td_seconds d). apply td_seconds_negative. subst d. lia.
  - intros Hlow. subst added. apply py_round_div_positive.
    fold (td_seconds d).
    assert (Hday : - days 1 <= d < 0).
    { subst d. unfold days, seconds, seconds_per_day, us_per_second in *. lia. }
    rewrite (td_seconds_negative d Hday).
    assert (-86369 <= d / us_per_second).
    { apply Z.div_le_lower_bound;
        unfold seconds, us_per_second in *; lia. }
    unfold seconds_per_day. lia.
Qed.

(** The theorem at the session that ends 10 minutes before it starts. *)
Lemma malformed_session_duration_witness :
  bucket (languages
            (fst (scan_step (minutes 5) (clock 0 0 0) (clock 23 59 59)
                            (get_default_stats_template, clock 0 0 0)
                            session_backwards)))
         "Python" = 1430.
Proof.
  refine (proj1 (malformed_session_duration
                   (minutes 5) (clock 0 0 0) (clock 23 59 59)
                   get_default_stats_template (clock 0 0 0)
                   session_backwards _)).
  vm_compute. reflexivity.
Defined.

(** ** Idle accounting (C3, C4) *)

Section Idle.

Variable allowed_break : timedelta.
Variables dt1 dt2 : datetime.


(** The threshold is strict. *)
Lemma idle_contribution_within_break (last_on_left l : datetime) :
  l - last_on_left <= allowed_break ->
  idle_contribution allowed_break last_on_left l = 0.
Proof.
  intros Hgap. unfold idle_contribution.
  destruct (allowed_break <? l - last_on_left) eqn:E; [|reflexivity].
  apply Z.ltb_lt in E. lia.
Qed.

Lemma idle_contribution_beyond_break (last_on_left l : datetime) :
  allowed_break < l - last_on_left ->
  0 <= l - last_on_left < days 1 ->
  idle_contribution allowed_break last_on_left l
  = py_round_div ((l - last_on_left) / us_per_second) 60.
Proof.
  intros Hgap Hday. unfold idle_contribution.
  destruct (allowed_break <? l - last_on_left) eqn:E.
  - now rewrite td_seconds_small.
  - apply Z.ltb_ge in E. lia.
Qed.

(** The clipped left edge is never before the window start. *)
Lemma left_end_ge_start (s : CodingSession) : dt1 <= left_end dt1 s.
Proof. unfold left_end. lia. Qed.

End Idle.




(** Ten minutes, a pause of exactly five minutes, five minutes more, in
    a window that opens with the first session: no idle time, and a
    total of 16 (10.5 rounds to 10, then 15.5 rounds to 16). *)
Example two_sessions_five_minutes_apart :
  idle_for (get_stats_between (minutes 5)
                              (user_with [session_first; session_after_5min])
                              (clock 10 0 0) (clock 11 0 0)) = 0
  /\ total (get_stats_between (minutes 5)
                              (user_with [session_first; session_after_5min])
                              (clock 10 0 0) (clock 11 0 0)) = 16.
Proof. vm_compute. repeat split. Qed.

(** C4 (as amended). The gap between the window start and the first
    session's clipped left edge is treated like every later gap: it adds
    round-half-to-even((whole seconds of the gap) / 60) to [idle_for]
    when it exceeds acceptableBreak (and is below one day) and nothing
    when it does not; the rest of [idle_for] comes from the gaps before
    the later sessions.  With zero sessions, [idle_for] is 0. *)
Theorem idle_before_first_session
        (allowed_break : timedelta) (u : User) (dt1 dt2 : datetime) :
  (query_sessions u dt1 dt2 = [] ->
   idle_for (get_stats_between allowed_break u dt1 dt2) = 0)
  /\ (forall first rest,
         query_sessions u dt1 dt2 = first :: rest ->
         let gap := left_end dt1 first - dt1 in
         idle_for (get_stats_between allowed_break u dt1 dt2)
         = idle_contribution allowed_break dt1 (left_end dt1 first)
           + idle_gaps allowed_break dt1 dt2
                       (Z.max (right_end dt2 first) dt1) rest
         /\ (gap <= allowed_break ->
             idle_contribution allowed_break dt1 (left_end dt1 first) = 0)
         /\ (allowed_break < gap -> gap < days 1 ->
             idle_contribution allowed_break dt1 (left_end dt1 first)
             = py_round_div (gap / us_per_second) 60)).
Proof.
  unfold get_stats_between, compute_window. split.
  - intros ->. reflexivity.
  - intros first rest Hquery. rewrite Hquery. cbv zeta. split; [|split].
    + rewrite scan_cons. unfold scan_step at 1.
      rewrite scan_idle_for. simpl. lia.
    + intros Hgap. now apply idle_contribution_within_break.
    + intros Hgap Hday. apply idle_contribution_beyond_break; [exact Hgap|].
      pose proof (left_end_ge_start dt1 first). lia.
Qed.

(** The theorem at the window from 10:00 to 11:00 and the user whose
    only session runs from 10:30 to 10:40, with a five-minute break
    allowed: the half hour before the first session exceeds the break and
    is what [idle_for] consists of. *)
Lemma idle_before_first_session_witness :
  idle_for (get_stats_between (minutes 5) (user_with [session_late])
                              (clock 10 0 0) (clock 11 0 0))
  = idle_contribution (minutes 5) (clock 10 0 0)
                      (left_end (clock 10 0 0) session_late)
    + idle_gaps (minutes 5) (clock 10 0 0) (clock 11 0 0)
                (Z.max (right_end (clock 11 0 0) session_late) (clock 10 0 0))
                []
  /\ idle_contribution (minutes 5) (clock 10 0 0)
                       (left_end (clock 10 0 0) session_late)
     = py_round_div
         ((left_end (clock 10 0 0) session_late - clock 10 0 0)
          / us_per_second) 60.
Proof.
  pose proof (proj2 (idle_before_first_session
                       (minutes 5) (user_with [session_late])
                       (clock 10 0 0) (clock 11 0 0))
                    session_late [] eq_refl) as H.
  cbv zeta in H. destruct H as (Hsum & _ & Hbeyond).
  split; [exact Hsum|].
  apply Hbeyond; vm_compute; reflexivity.
Defined.

(** C4, the claim as stated fails: a single session that starts half an
    hour after the window opens, with a five-minute break allowed, gives
    30 idle minutes, all of them from before the first session. *)
Lemma idle_counts_gap_before_first_session :
  query_sessions (user_with [session_late]) (clock 10 0 0) (clock 11 0 0)
  = [session_late]
  /\ left_end (clock 10 0 0) session_late - clock 10 0 0 = minutes 30
  /\ idle_for (get_stats_between (minutes 5) (user_with [session_late])
                                 (clock 10 0 0) (clock 11 0 0)) = 30.
Proof. vm_compute. repeat split. Qed.

(** ** Overlap and the total (C1) *)

Section Overlap.

Variable allowed_break : timedelta.
Variables dt1 dt2 : datetime.

(** A session inside the stretch already covered brings no new length,
    yet the half minute is added all the same and the sum is rounded:
    the total stays when it is even and grows by one when it is odd. *)
Lemma next_total_contained (tot : Z) (last_on_left l r : datetime) :
  l <= last_on_left -> r <= last_on_left ->
  next_total tot last_on_left l r = if Z.even tot then tot else tot + 1.
Proof.
  intros Hl Hr. unfold next_total.
  rewrite !Z.max_r by lia.
  replace (last_on_left - last_on_left + seconds 30) with (seconds 30) by lia.
  rewrite td_seconds_of_seconds.
  change (30 mod seconds_per_day) with 30.
  apply py_round_div_half.
Qed.

Lemma scan_step_contained (stats : Stats) (last_on_left : datetime)
      (s : CodingSession) :
  left_end dt1 s <= last_on_left -> right_end dt2 s <= last_on_left ->
  total (fst (scan_step allowed_break dt1 dt2 (stats, last_on_left) s))
  = (if Z.even (total stats) then total stats else total stats + 1)
  /\ snd (scan_step allowed_break dt1 dt2 (stats, last_on_left) s)
     = last_on_left.
Proof.
  intros Hl Hr. simpl. split.
  - now apply next_total_contained.
  - lia.
Qed.

End Overlap.

(** The example of the specification: half an hour of Python with ten
    minutes of Go inside it gives 30 and 10 in the buckets and 30 in
    total. *)
Example overlap_half_hour :
  bucket (languages (get_stats_between
                       (minutes 5)
                       (user_with [session_half_hour; session_inside_half_hour])
                       (clock 0 0 0) (clock 23 59 59))) "Python" = 30
  /\ bucket (languages (get_stats_between
                          (minutes 5)
                          (user_with [session_half_hour; session_inside_half_hour])
                          (clock 0 0 0) (clock 23 59 59))) "Go" = 10
  /\ total (get_stats_between
              (minutes 5)
              (user_with [session_half_hour; session_inside_half_hour])
              (clock 0 0 0) (clock 23 59 59)) = 30.
Proof. vm_compute. repeat split. Qed.

(** C1, at the input where the code departs from it.  Forty seconds of
    Python alone give a total of 1.  Ten seconds of Go inside those forty
    seconds add their rounded duration, 1, to the Go and vscode buckets,
    and also raise the total to 2, although the covered stretch is still
    40 seconds long. *)
Theorem contained_session_raises_total :
  query_sessions (user_with [session_40s; session_inside_40s])
                 (clock 0 0 0) (clock 23 59 59)
  = [session_40s; session_inside_40s]
  /\ left_end (clock 0 0 0) session_40s
     <= left_end (clock 0 0 0) session_inside_40s
  /\ right_end (clock 23 59 59) session_inside_40s
     <= right_end (clock 23 59 59) session_40s
  /\ total (get_stats_between (minutes 5) (user_with [session_40s])
                              (clock 0 0 0) (clock 23 59 59)) = 1
  /\ bucket (languages
               (get_stats_between
                  (minutes 5) (user_with [session_40s; session_inside_40s])
                  (clock 0 0 0) (clock 23 59 59))) "Go" = 1
  /\ total (get_stats_between
              (minutes 5) (user_with [session_40s; session_inside_40s])
              (clock 0 0 0) (clock 23 59 59)) = 2.
Proof. vm_compute. repeat split; discriminate. Qed.

(** ** The per-day entry point (C5, C6) *)

Section PerDay.

Variable allowed_break : timedelta.
Variable zoneinfo : string -> option tzinfo.

(** The window conversion spelled out. *)
Lemma astimezone_cases (tz : tzinfo) (local : datetime) (u : User) :
  astimezone tz local u
  = if valid_datetimeb (astimezone_utc tz local)
    then (Return (astimezone_utc tz local), u)
    else (Raise OverflowError, u).
Proof.
  unfold astimezone, ret, raise.
  now destruct (valid_datetimeb (astimezone_utc tz local)).
Qed.

Lemma valid_datetimeb_true (t : datetime) :
  valid_datetimeb t = true <-> valid_datetime t.
Proof.
  unfold valid_datetimeb, valid_datetime.
  rewrite andb_true_iff, !Z.leb_le. tauto.
Qed.

(** What a call does once the cache has not answered. *)
Lemma get_stats_by_date_miss (stats_date : date) (u : User) :
  get_stats_by_date allowed_break zoneinfo stats_date false u
  = match zoneinfo (timezone_or_utc (timezone u)) with
    | None =>
        (Raise (ZoneInfoNotFoundError (timezone_or_utc (timezone u))), u)
    | Some user_tz =>
        match zoneinfo "UTC" with
        | None => (Raise (ZoneInfoNotFoundError "UTC"), u)
        | Some _ =>
            if valid_datetimeb
                 (astimezone_utc user_tz (datetime_of stats_date 0 0 0))
            then
              if valid_datetimeb
                   (astimezone_utc user_tz (datetime_of stats_date 23 59 59))
              then
                (Return (get_stats_between
                           allowed_break u
                           (astimezone_utc user_tz
                                           (datetime_of stats_date 0 0 0))
                           (astimezone_utc user_tz
                                           (datetime_of stats_date 23 59 59))),
                 u)
              else (Raise OverflowError, u)
            else (Raise OverflowError, u)
        end
    end.
Proof.
  unfold get_stats_by_date, bind, self, ZoneInfo, ret, raise.
  destruct (zoneinfo (timezone_or_utc (timezone u))); [|reflexivity].
  destruct (zoneinfo "UTC"); [|reflexivity].
  rewrite !astimezone_cases.
  destruct (valid_datetimeb (astimezone_utc _ (datetime_of stats_date 0 0 0)));
    [|reflexivity].
  rewrite !astimezone_cases.
  now destruct (valid_datetimeb
                  (astimezone_utc _ (datetime_of stats_date 23 59 59))).
Qed.

(** The ways a call can go, spelled out on the user record: with the
    cache on, a NULL column raises, a stored entry is returned, and a
    missing entry leads to what the call does with the cache off. *)
Lemma get_stats_by_date_cases (stats_date : date) (use_cache : bool)
      (u : User) :
  get_stats_by_date allowed_break zoneinfo stats_date use_cache u
  = if use_cache then
      match statistics u with
      | None => (Raise TypeError, u)
      | Some cache =>
          match cache !! strftime_dmYYYY stats_date with
          | Some cached => (Return cached, u)
          | None => get_stats_by_date allowed_break zoneinfo stats_date false u
          end
      end
    else get_stats_by_date allowed_break zoneinfo stats_date false u.
Proof.
  destruct use_cache; [|reflexivity].
  unfold get_stats_by_date, bind, self, cache_get, ret.
  destruct (statistics u) as [cache|]; [|reflexivity].
  now destruct (cache !! strftime_dmYYYY stats_date).
Qed.

(** No path of [get_stats_by_date] assigns to [self.statistics] (or to
    anything else of the user). *)
Lemma get_stats_by_date_user_after (stats_date : date) (use_cache : bool)
      (u : User) :
  user_after (get_stats_by_date allowed_break zoneinfo stats_date use_cache u)
  = u.
Proof.
  rewrite get_stats_by_date_cases, get_stats_by_date_miss.
  repeat match goal with
         | |- context [match ?x with _ => _ end] => destruct x
         end; reflexivity.
Qed.

(** The exceptions of the per-day entry point: the one of [ZoneInfo],
    the [OverflowError] of the window conversion and the [TypeError] of
    a NULL cache. *)
Lemma get_stats_by_date_raises (stats_date : date) (use_cache : bool)
      (u : User) (e : exception) :
  fst (get_stats_by_date allowed_break zoneinfo stats_date use_cache u)
  = Raise e ->
  e = TypeError \/ e = OverflowError
  \/ exists key, e = ZoneInfoNotFoundError key.
Proof.
  rewrite get_stats_by_date_cases, get_stats_by_date_miss.
  repeat match goal with
         | |- context [match ?x with _ => _ end] => destruct x
         end; simpl; intros H; inversion H; eauto.
Qed.

Lemma timezone_or_utc_absent (tz : option string) :
  tz = None \/ tz = Some ""%string -> timezone_or_utc tz = "UTC"%string.
Proof. intros [-> | ->]; reflexivity. Qed.

Lemma timezone_or_utc_present (key : string) :
  key <> ""%string -> timezone_or_utc (Some key) = key.
Proof. destruct key; [congruence | reflexivity]. Qed.

End PerDay.

(** C5 (as amended). [get_stats_by_date] reads the per-day cache and
    never writes it: after every call the user record, and so
    [statistics], is what it was before, so that a later call with the
    cache on does what the first one did.  On a cache miss (or with
    use_cache false), when both time zone lookups succeed and the two
    ends of the day's window are datetimes, the day's summary is
    computed from the sessions and returned without being stored.  With
    use_cache true an entry already stored under the key the lookup
    builds is returned unchanged, and a NULL [statistics] column makes
    the call raise TypeError. *)
Theorem get_stats_by_date_cache
        (allowed_break : timedelta) (zoneinfo : string -> option tzinfo)
        (stats_date : date) (use_cache : bool) (u : User) :
  user_after (get_stats_by_date allowed_break zoneinfo stats_date use_cache u)
  = u
  /\ get_stats_by_date
       allowed_break zoneinfo stats_date true
       (user_after
          (get_stats_by_date allowed_break zoneinfo stats_date use_cache u))
     = get_stats_by_date allowed_break zoneinfo stats_date true u
  /\ (forall cache cached,
         use_cache = true ->
         statistics u = Some cache ->
         cache !! strftime_dmYYYY stats_date = Some cached ->
         fst (get_stats_by_date allowed_break zoneinfo stats_date use_cache u)
         = Return cached)
  /\ (use_cache = true ->
      statistics u = None ->
      fst (get_stats_by_date allowed_break zoneinfo stats_date use_cache u)
      = Raise TypeError)
  /\ (forall user_tz utc_tz,
         use_cache = false
         \/ (exists cache,
                statistics u = Some cache
                /\ cache !! strftime_dmYYYY stats_date = None) ->
         zoneinfo (timezone_or_utc (timezone u)) = Some user_tz ->
         zoneinfo "UTC"%string = Some utc_tz ->
         valid_datetime
           (astimezone_utc user_tz (datetime_of stats_date 0 0 0)) ->
         valid_datetime
           (astimezone_utc user_tz (datetime_of stats_date 23 59 59)) ->
         fst (get_stats_by_date allowed_break zoneinfo stats_date use_cache u)
         = Return (get_stats_between
                     allowed_break u
                     (astimezone_utc user_tz (datetime_of stats_date 0 0 0))
                     (astimezone_utc user_tz
                                     (datetime_of stats_date 23 59 59)))).
Proof.
  split; [apply get_stats_by_date_user_after|].
  split; [now rewrite get_stats_by_date_user_after|].
  split; [|split].
  - intros cache cached -> Hcache Hhit.
    rewrite get_stats_by_date_cases, Hcache, Hhit. reflexivity.
  - intros -> Hnull. rewrite get_stats_by_date_cases, Hnull. reflexivity.
  - intros user_tz utc_tz Hmiss Htz Hutc Hstart Hend.
    apply valid_datetimeb_true in Hstart, Hend.
    assert (Hoff : fst (get_stats_by_date allowed_break zoneinfo stats_date
                                          false u)
                   = Return (get_stats_between
                               allowed_break u
                               (astimezone_utc user_tz
                                               (datetime_of stats_date 0 0 0))
                               (astimezone_utc user_tz
                                               (datetime_of stats_date
                                                            23 59 59))))
      by (rewrite get_stats_by_date_miss, Htz, Hutc, Hstart, Hend;
          reflexivity).
    rewrite get_stats_by_date_cases.
    destruct Hmiss as [-> | (cache & Hcache & Hnone)]; [exact Hoff|].
    rewrite Hcache, Hnone. destruct use_cache; exact Hoff.
Qed.

(** The theorem at a first call for 2023-01-15 on an empty cache. *)
Lemma get_stats_by_date_cache_witness :
  fst (get_stats_by_date
         (minutes 5) example_zoneinfo example_day true
         (user_with [session_half_hour; session_inside_half_hour]))
  = Return (get_stats_between
              (minutes 5)
              (user_with [session_half_hour; session_inside_half_hour])
              (clock 0 0 0) (clock 23 59 59)).
Proof.
  refine (proj2 (proj2 (proj2 (proj2
            (get_stats_by_date_cache
               (minutes 5) example_zoneinfo example_day true
               (user_with [session_half_hour; session_inside_half_hour])))))
            (fun _ => 0) (fun _ => 0) _ _ _ _ _).
  - right. exists ∅. split; reflexivity.
  - reflexivity.
  - reflexivity.
  - vm_compute. split; discriminate.
  - vm_compute. split; discriminate.
Defined.

(** C5, the claim as stated fails: a first call for 2023-01-15 on an
    empty cache returns the day's summary, and the cache is still the
    empty dictionary afterwards: there is no entry under the DD-MM-YYYY
    key nor under the key the lookup builds (which is the date followed
    by the letters YYY). *)
Lemma get_stats_by_date_stores_nothing :
  total <$> returned
              (get_stats_by_date
                 (minutes 5) example_zoneinfo example_day true
                 (user_with [session_half_hour; session_inside_half_hour]))
  = Some 30
  /\ strftime_dmY example_day = "15-01-2023"%string
  /\ strftime_dmYYYY example_day = "15-01-2023YYY"%string
  /\ statistics
       (user_after
          (get_stats_by_date
             (minutes 5) example_zoneinfo example_day true
             (user_with [session_half_hour; session_inside_half_hour])))
     = Some ∅.
Proof. vm_compute. repeat split. Qed.

(** The two failures of the per-day entry point besides the zone
    lookup.  At 0001-01-01 in a zone five and a half hours ahead of UTC,
    the local midnight is before [datetime.min] in UTC: OverflowError.
    With a NULL [statistics] column the call raises TypeError when the
    cache is on and returns the summary when it is off. *)
Example get_stats_by_date_failures :
  fst (get_stats_by_date (minutes 5) example_zoneinfo MINORDINAL true
                         (with_timezone (Some "Asia/Kolkata"%string)
                                        (user_with [])))
  = Raise OverflowError
  /\ fst (get_stats_by_date (minutes 5) example_zoneinfo example_day true
                            (mkUser None None [session_half_hour]))
     = Raise TypeError
  /\ total <$> returned
                 (get_stats_by_date (minutes 5) example_zoneinfo example_day
                                    false
                                    (mkUser None None [session_half_hour]))
     = Some 30.
Proof. vm_compute. repeat split. Qed.

(** C6 (as amended). When the user's time zone identifier is absent
    (NULL or the empty string), [get_stats_by_date] behaves as for the
    identifier UTC.  An identifier the time zone database does not know
    is not replaced: unless the answer comes from the cache, the call
    raises ZoneInfoNotFoundError for that identifier. *)
Theorem timezone_fallback
        (allowed_break : timedelta) (zoneinfo : string -> option tzinfo)
        (stats_date : date) (use_cache : bool) (u : User) :
  (timezone u = None \/ timezone u = Some ""%string ->
   fst (get_stats_by_date allowed_break zoneinfo stats_date use_cache u)
   = fst (get_stats_by_date allowed_break zoneinfo stats_date use_cache
                            (with_timezone (Some "UTC"%string) u)))
  /\ (forall key,
         timezone u = Some key -> key <> ""%string ->
         zoneinfo key = None ->
         use_cache = false
         \/ (exists cache,
                statistics u = Some cache
                /\ cache !! strftime_dmYYYY stats_date = None) ->
         fst (get_stats_by_date allowed_break zoneinfo stats_date use_cache u)
         = Raise (ZoneInfoNotFoundError key)).
Proof.
  split.
  - intros Habsent.
    assert (Hoff : get_stats_by_date allowed_break zoneinfo stats_date false u
                   = (fst (get_stats_by_date
                             allowed_break zoneinfo stats_date false
                             (with_timezone (Some "UTC"%string) u)), u)).
    { rewrite !get_stats_by_date_miss. simpl.
      rewrite (timezone_or_utc_absent _ Habsent).
      repeat match goal with
             | |- context [match ?x with _ => _ end] => destruct x
             end; reflexivity. }
    destruct use_cache; [|now rewrite Hoff].
    rewrite (get_stats_by_date_cases allowed_break zoneinfo stats_date true u).
    rewrite (get_stats_by_date_cases allowed_break zoneinfo stats_date true
                                     (with_timezone (Some "UTC"%string) u)).
    simpl.
    destruct (statistics u) as [cache|]; [|reflexivity].
    destruct (cache !! strftime_dmYYYY stats_date); [reflexivity|].
    now rewrite Hoff.
  - intros key Htz Hkey Hunknown Hmiss.
    assert (Hoff : fst (get_stats_by_date allowed_break zoneinfo stats_date
                                          false u)
                   = Raise (ZoneInfoNotFoundError key)).
    { rewrite get_stats_by_date_miss, Htz.
      now rewrite (timezone_or_utc_present key Hkey), Hunknown. }
    rewrite get_stats_by_date_cases.
    destruct Hmiss as [-> | (cache & Hcache & Hnone)]; [exact Hoff|].
    rewrite Hcache, Hnone. destruct use_cache; exact Hoff.
Qed.

(** The theorem at a user without a time zone. *)
Lemma timezone_fallback_witness :
  fst (get_stats_by_date (minutes 5) example_zoneinfo example_day true
                         (user_with [session_half_hour]))
  = fst (get_stats_by_date (minutes 5) example_zoneinfo example_day true
                           (with_timezone (Some "UTC"%string)
                                          (user_with [session_half_hour]))).
Proof.
  refine (proj1 (timezone_fallback (minutes 5) example_zoneinfo example_day
                                   true (user_with [session_half_hour])) _).
  left. reflexivity.
Defined.

(** C6, the claim as stated fails: with an identifier the database does
    not know, the call for 2023-01-15 raises ZoneInfoNotFoundError, while
    the same user with the identifier UTC gets the day's summary. *)
Lemma unknown_timezone_raises :
  example_zoneinfo "Mars/Olympus"%string = None
  /\ fst (get_stats_by_date
            (minutes 5) example_zoneinfo example_day true
            (with_timezone (Some "Mars/Olympus"%string)
                           (user_with [session_half_hour])))
     = Raise (ZoneInfoNotFoundError "Mars/Olympus"%string)
  /\ total <$> returned
                 (get_stats_by_date
                    (minutes 5) example_zoneinfo example_day true
                    (with_timezone (Some "UTC"%string)
                                   (user_with [session_half_hour])))
     = Some 30.
Proof. vm_compute. repeat split. Qed.

(** ** The range query (C7) *)

Section Range.

Variable allowed_break : timedelta.
Variable zoneinfo : string -> option tzinfo.

Lemma date_add_day_raises (d : date) (u : User) (e : exception) :
  fst (date_add_day d u) = Raise e -> e = OverflowError.
Proof.
  unfold date_add_day, ret, raise.
  destruct (d + 1 <=? MAXORDINAL); simpl; intros H; now inversion H.
Qed.

(** Whatever the loop raises comes from the next-day computation or from
    the per-day entry point: it is never an AssertionError. *)
Lemma daywise_loop_raises (fuel : nat) :
  forall current_date end_ stats u e,
    fst (daywise_loop allowed_break zoneinfo fuel current_date end_ stats u)
    = Raise e ->
    e = TypeError \/ e = OverflowError
    \/ exists key, e = ZoneInfoNotFoundError key.
Proof.
  induction fuel as [|fuel IH]; intros cur end_ stats u e; simpl.
  - destruct (cur <=? end_); simpl; intros H; inversion H.
  - destruct (cur <=? end_); [|simpl; intros H; inversion H].
    unfold bind at 1.
    destruct (date_add_day cur u) as [[next|e1] u1] eqn:Enext.
    + unfold bind at 1.
      destruct (get_stats_by_date allowed_break zoneinfo cur true u1)
        as [[day_stats|e2] u2] eqn:Eday.
      * apply IH.
      * simpl. intros H. inversion H; subst.
        apply (get_stats_by_date_raises allowed_break zoneinfo cur true u1).
        now rewrite Eday.
    + simpl. intros H. inversion H; subst. right. left.
      apply (date_add_day_raises cur u). now rewrite Enext.
Qed.

Lemma daywise_loop_succ (fuel : nat) (current_date end_ : date)
      (stats : gmap string Stats) :
  daywise_loop allowed_break zoneinfo (S fuel) current_date end_ stats
  = if current_date <=? end_ then
      bind (date_add_day current_date)
           (fun day_after_current =>
              bind (get_stats_by_date allowed_break zoneinfo current_date true)
                   (fun day_stats =>
                      daywise_loop allowed_break zoneinfo fuel
                                   day_after_current end_
                                   (<[strftime_dmY current_date := day_stats]>
                                      stats)))
    else ret stats.
Proof. reflexivity. Qed.

(** The loop never stops for lack of fuel: from [days_between] on, more
    fuel changes nothing. *)
Lemma daywise_loop_fuel (fuel : nat) :
  forall current_date end_ stats u,
    (days_between current_date end_ <= fuel)%nat ->
    daywise_loop allowed_break zoneinfo (S fuel) current_date end_ stats u
    = daywise_loop allowed_break zoneinfo fuel current_date end_ stats u.
Proof.
  unfold days_between.
  induction fuel as [|fuel IH]; intros cur end_ stats u Hfuel.
  - simpl. destruct (cur <=? end_) eqn:E; [|reflexivity].
    apply Z.leb_le in E. lia.
  - rewrite (daywise_loop_succ (S fuel)), (daywise_loop_succ fuel).
    destruct (cur <=? end_) eqn:E; [|reflexivity].
    apply Z.leb_le in E.
    unfold bind, date_add_day.
    destruct (cur + 1 <=? MAXORDINAL); [|reflexivity].
    unfold ret.
    destruct (get_stats_by_date allowed_break zoneinfo cur true u)
      as [[day_stats|e2] u2]; [|reflexivity].
    apply IH. lia.
Qed.

End Range.

(** C7. For every pair of dates with start > end, [daywise_stats] raises
    its AssertionError (the InvalidRange condition) at once: nothing is
    returned, no per-day statistics are computed and the user record is
    untouched.  For start <= end, and when no end is given, whatever the
    call does, it does not raise an AssertionError. *)
Theorem daywise_stats_range_check
        (allowed_break : timedelta) (zoneinfo : string -> option tzinfo)
        (start : date) (u : User) :
  (forall end_,
      end_ < start ->
      daywise_stats allowed_break zoneinfo start (Some end_) u
      = (Raise (AssertionError
                  "End date must be greater than or equal to start date"),
         u))
  /\ (forall end_ message,
         start <= end_ ->
         fst (daywise_stats allowed_break zoneinfo start (Some end_) u)
         <> Raise (AssertionError message))
  /\ (forall message,
         fst (daywise_stats allowed_break zoneinfo start None u)
         <> Raise (AssertionError message)).
Proof.
  unfold daywise_stats. repeat split.
  - intros end_ Hlt.
    destruct (start <=? end_) eqn:E; [apply Z.leb_le in E; lia|].
    reflexivity.
  - intros end_ message Hle Hraise.
    destruct (start <=? end_) eqn:E; [|apply Z.leb_gt in E; lia].
    apply daywise_loop_raises in Hraise.
    destruct Hraise as [H | [H | [key H]]]; discriminate H.
  - intros message Hraise.
    rewrite Z.leb_refl in Hraise.
    apply daywise_loop_raises in Hraise.
    destruct Hraise as [H | [H | [key H]]]; discriminate H.
Qed.

(** The theorem at a range that ends the day before it starts. *)
Lemma daywise_stats_range_check_witness :
  daywise_stats (minutes 5) example_zoneinfo (example_day + 1)
                (Some example_day) (user_with [session_half_hour])
  = (Raise (AssertionError
              "End date must be greater than or equal to start date"),
     user_with [session_half_hour]).
Proof.
  refine (proj1 (daywise_stats_range_check
                   (minutes 5) example_zoneinfo (example_day + 1)
                   (user_with [session_half_hour]))
                example_day _).
  vm_compute. reflexivity.
Defined.

(** ** The current activity (C8) *)

Section Activity.

(** Folding [later_of] keeps a row that no row beats. *)
Lemma fold_later_of (l : list CodingSession) :
  forall best s,
    fold_left later_of l (Some best) = Some s ->
    In s (best :: l)
    /\ last_heartbeat_at best <= last_heartbeat_at s
    /\ (forall s', In s' l -> last_heartbeat_at s' <= last_heartbeat_at s).
Proof.
  induction l as [|x l IH]; intros best s; simpl.
  - intros [= ->]. split; [now left|]. split; [lia|]. intros s' [].
  - destruct (last_heartbeat_at best <? last_heartbeat_at x) eqn:E;
      intros Hfold; apply IH in Hfold as (Hin & Hbest & Hall).
    + apply Z.ltb_lt in E. split; [|split].
      * destruct Hin as [-> | Hin]; [right; now left | right; now right].
      * lia.
      * intros s' [-> | Hs']; [exact Hbest | now apply Hall].
    + apply Z.ltb_ge in E. split; [|split].
      * destruct Hin as [-> | Hin]; [now left | right; now right].
      * exact Hbest.
      * intros s' [-> | Hs']; [lia | now apply Hall].
Qed.

Lemma fold_later_of_some (l : list CodingSession) :
  forall best, exists s, fold_left later_of l (Some best) = Some s.
Proof.
  induction l as [|x l IH]; intros best; simpl.
  - now exists best.
  - destruct (last_heartbeat_at best <? last_heartbeat_at x); apply IH.
Qed.

(** [last_session] finds nothing exactly when the user has no session,
    and otherwise a session with the latest heartbeat. *)
Lemma last_session_none (u : User) :
  last_session u = None <-> coding_sessions u = [].
Proof.
  unfold last_session. destruct (coding_sessions u) as [|x l]; simpl.
  - tauto.
  - destruct (fold_later_of_some l x) as [s Hs]. rewrite Hs.
    split; discriminate.
Qed.

Lemma last_session_latest (u : User) (s : CodingSession) :
  last_session u = Some s ->
  In s (coding_sessions u)
  /\ (forall s', In s' (coding_sessions u) ->
                 last_heartbeat_at s' <= last_heartbeat_at s).
Proof.
  unfold last_session. destruct (coding_sessions u) as [|x l]; simpl.
  - discriminate.
  - intros Hfold. apply fold_later_of in Hfold as (Hin & Hbest & Hall).
    split; [exact Hin|]. intros s' [-> | Hs']; [exact Hbest | now apply Hall].
Qed.

(** X20. The four messages can be told apart: whatever the sessions
    and the elapsed time in them, no two of the NoData, Coding, Idle and
    Away messages are the same string. *)
Lemma messages_distinct (s1 s2 s3 : CodingSession) (since : timedelta) :
  message_no_data <> message_coding s1
  /\ message_no_data <> message_idle s2
  /\ message_no_data <> message_away since
  /\ message_coding s1 <> message_idle s2
  /\ message_coding s1 <> message_away since
  /\ message_idle s2 <> message_away since.
Proof.
  unfold message_no_data, message_coding, message_idle, message_away.
  repeat split; simpl; discriminate.
Qed.

End Activity.

(** The chain of comparisons classifies an elapsed time as the claim
    says: Coding below 60 seconds, Idle from 60 seconds to below
    5 minutes, Away with the elapsed time from 5 minutes on. *)
Lemma activity_message_classification (s : CodingSession)
      (since_last_hb : timedelta) :
  (since_last_hb < seconds 60 ->
   activity_message s since_last_hb = message_coding s)
  /\ (seconds 60 <= since_last_hb -> since_last_hb < minutes 5 ->
      activity_message s since_last_hb = message_idle s)
  /\ (minutes 5 <= since_last_hb ->
      activity_message s since_last_hb = message_away since_last_hb).
Proof.
  unfold activity_message. repeat split.
  - intros Hlt. apply Z.ltb_lt in Hlt. now rewrite Hlt.
  - intros Hge Hlt. apply Z.ltb_ge in Hge. apply Z.ltb_lt in Hlt.
    now rewrite Hge, Hlt.
  - intros Hge.
    assert (Hge60 : seconds 60 <= since_last_hb)
      by (unfold minutes, seconds, us_per_second in *; lia).
    apply Z.ltb_ge in Hge, Hge60. now rewrite Hge60, Hge.
Qed.

(** The three messages of the chain, for the half-hour session: 59
    seconds, 60 seconds and 5 minutes after its last heartbeat. *)
Example activity_message_examples :
  activity_message session_half_hour (seconds 59)
  = "You're writing code right now! Time spent coding: 0:30:00, Language: Python"%string
  /\ activity_message session_half_hour (seconds 60)
     = "You're idle right now. Just before that, you wrote Python code for: 0:30:00"%string
  /\ activity_message session_half_hour (minutes 5)
     = "You're currently not writing any code. It's been 0:05:00 since you last coded."%string.
Proof. vm_compute. repeat split. Qed.

(** Without a session the message is the NoData one. *)
Lemma current_activity_message_no_session (now : datetime) (u : User) :
  coding_sessions u = [] ->
  current_activity_message now u = Return message_no_data.
Proof.
  intros Hnone. apply last_session_none in Hnone.
  unfold current_activity_message. now rewrite Hnone.
Qed.

(** With a session, the subtraction of its naive [last_heartbeat_at]
    from the aware [now] raises before any comparison is made. *)
Lemma current_activity_message_with_session (now : datetime) (u : User) :
  coding_sessions u <> [] ->
  current_activity_message now u = Raise TypeError.
Proof.
  intros Hsome. unfold current_activity_message.
  destruct (last_session u) as [s|] eqn:E; [reflexivity|].
  apply last_session_none in E. contradiction.
Qed.

(** C8, at the input where the code departs from it.  For a user whose
    only session had its last heartbeat at 10:30:00, asked at 10:30:10,
    the elapsed time is 10 seconds and the claim gives the Coding
    message; the code raises TypeError, because [now] is aware and the
    column value is naive.  Only the NoData case returns. *)
Theorem current_activity_message_type_error :
  last_session (user_with [session_half_hour]) = Some session_half_hour
  /\ clock 10 30 10 - last_heartbeat_at session_half_hour = seconds 10
  /\ activity_message session_half_hour (seconds 10)
     = message_coding session_half_hour
  /\ current_activity_message (clock 10 30 10) (user_with [session_half_hour])
     = Raise TypeError
  /\ current_activity_message (clock 10 30 10) (user_with [])
     = Return message_no_data.
Proof. vm_compute. repeat split. Qed.

(** * Further properties *)

(** ** The session query and the latest session *)

Section QueryMore.

Implicit Types (s : CodingSession) (l : list CodingSession).

Lemma insert_by_start_perm s l : insert_by_start s l ≡ₚ s :: l.
Proof.
  induction l as [|x l IH]; simpl; [reflexivity|].
  destruct (started_at s <? started_at x); [reflexivity|].
  rewrite IH. apply Permutation_swap.
Qed.

Lemma order_by_started_at_perm l : order_by_started_at l ≡ₚ l.
Proof.
  unfold order_by_started_at. induction l as [|x l IH]; simpl; [reflexivity|].
  rewrite insert_by_start_perm. now rewrite IH.
Qed.

Lemma filter_nothing (f : CodingSession -> bool) l :
  (forall s, In s l -> f s = false) -> List.filter f l = [].
Proof.
  induction l as [|x l IH]; simpl; intros Hall; [reflexivity|].
  rewrite (Hall x) by now left. apply IH. intros s Hs. apply Hall. now right.
Qed.

End QueryMore.

(** X1. The query of [get_stats_between] returns the user's rows with
    [last_heartbeat_at > dt1] and [started_at < dt2], each as often as it
    is in the table, in ascending order of [started_at]. *)
Theorem query_sessions_sorted_window (u : User) (dt1 dt2 : datetime) :
  ascending (query_sessions u dt1 dt2)
  /\ query_sessions u dt1 dt2
     ≡ₚ List.filter (in_window dt1 dt2) (coding_sessions u)
  /\ forall s,
      In s (query_sessions u dt1 dt2)
      <-> In s (coding_sessions u)
          /\ dt1 < last_heartbeat_at s /\ started_at s < dt2.
Proof.
  split; [apply order_by_started_at_ascending|]. split.
  - apply order_by_started_at_perm.
  - apply query_sessions_spec.
Qed.

(** X2. [last_session] is [None] exactly for a user without sessions;
    otherwise it is one of the user's sessions, and no session of the
    user has a later [last_heartbeat_at]. *)
Theorem last_session_most_recent (u : User) :
  (last_session u = None <-> coding_sessions u = [])
  /\ forall s,
      last_session u = Some s ->
      In s (coding_sessions u)
      /\ forall s', In s' (coding_sessions u) ->
                    last_heartbeat_at s' <= last_heartbeat_at s.
Proof.
  split; [apply last_session_none | apply last_session_latest].
Qed.

(** The theorem at a user with two sessions: the later heartbeat wins,
    whatever the table order. *)
Lemma last_session_most_recent_witness :
  In session_half_hour
     (coding_sessions (user_with [session_half_hour; session_first]))
  /\ forall s',
      In s' (coding_sessions (user_with [session_half_hour; session_first])) ->
      last_heartbeat_at s' <= last_heartbeat_at session_half_hour.
Proof.
  refine (proj2 (last_session_most_recent
                   (user_with [session_half_hour; session_first]))
                session_half_hour _).
  reflexivity.
Defined.

(** ** Windows without sessions *)

(** X3. When no session of the user reaches into the window (each one
    has its last heartbeat at or before [dt1], or starts at or after
    [dt2]), [get_stats_between] returns the template: no language, no
    editor, total 0 and idle_for 0. *)
Theorem get_stats_between_no_session
        (allowed_break : timedelta) (u : User) (dt1 dt2 : datetime) :
  (forall s, In s (coding_sessions u) ->
             last_heartbeat_at s <= dt1 \/ dt2 <= started_at s) ->
  get_stats_between allowed_break u dt1 dt2 = get_default_stats_template.
Proof.
  intros Hout. unfold get_stats_between, query_sessions.
  rewrite filter_nothing; [reflexivity|].
  intros s Hs. unfold in_window. apply andb_false_iff.
  destruct (Hout s Hs) as [H | H]; [left | right]; apply Z.ltb_ge; exact H.
Qed.

(** The theorem at a morning window and a user who only worked in the
    evening. *)
Lemma get_stats_between_no_session_witness :
  get_stats_between (minutes 5) (user_with [session_evening])
                    (clock 10 0 0) (clock 11 0 0)
  = get_default_stats_template.
Proof.
  apply (get_stats_between_no_session
           (minutes 5) (user_with [session_evening])
           (clock 10 0 0) (clock 11 0 0)).
  intros s [<- | []]. right. vm_compute. discriminate.
Defined.

(** ** What the acceptable break influences *)

Section Break.

Variables dt1 dt2 : datetime.

(** A larger break never lets a gap count that a smaller one ignores. *)
Lemma idle_gaps_antitone (ab1 ab2 : timedelta) (sessions : list CodingSession) :
  ab1 <= ab2 ->
  forall last_on_left,
    idle_gaps ab2 dt1 dt2 last_on_left sessions
    <= idle_gaps ab1 dt1 dt2 last_on_left sessions.
Proof.
  intros Hab. induction sessions as [|s rest IH]; intros last; simpl; [lia|].
  specialize (IH (Z.max (right_end dt2 s) last)).
  pose proof (idle_contribution_nonneg ab1 last (left_end dt1 s)) as Hnn.
  unfold idle_contribution in *.
  destruct (ab2 <? left_end dt1 s - last) eqn:E2;
    destruct (ab1 <? left_end dt1 s - last) eqn:E1;
    try apply Z.ltb_lt in E2; try apply Z.ltb_ge in E2;
    try apply Z.ltb_lt in E1; try apply Z.ltb_ge in E1; lia.
Qed.

(** The buckets, the total and the covered edge are computed without a
    look at the break. *)
Lemma scan_break_independent (ab1 ab2 : timedelta)
      (sessions : list CodingSession) :
  forall st1 st2,
    languages (fst st1) = languages (fst st2) ->
    editors (fst st1) = editors (fst st2) ->
    total (fst st1) = total (fst st2) ->
    snd st1 = snd st2 ->
    languages (fst (scan ab1 dt1 dt2 sessions st1))
    = languages (fst (scan ab2 dt1 dt2 sessions st2))
    /\ editors (fst (scan ab1 dt1 dt2 sessions st1))
       = editors (fst (scan ab2 dt1 dt2 sessions st2))
    /\ total (fst (scan ab1 dt1 dt2 sessions st1))
       = total (fst (scan ab2 dt1 dt2 sessions st2)).
Proof.
  induction sessions as [|s rest IH]; intros [stats1 last1] [stats2 last2];
    simpl; intros Hl He Ht Hlast.
  - auto.
  - apply IH; simpl; congruence.
Qed.

End Break.

(** X4. The acceptable break only enters [idle_for]: for two break
    values the languages, the editors and the total of a window are the
    same, and the larger break gives an [idle_for] that is not larger. *)
Theorem allowed_break_only_idle
        (ab1 ab2 : timedelta) (u : User) (dt1 dt2 : datetime) :
  languages (get_stats_between ab1 u dt1 dt2)
  = languages (get_stats_between ab2 u dt1 dt2)
  /\ editors (get_stats_between ab1 u dt1 dt2)
     = editors (get_stats_between ab2 u dt1 dt2)
  /\ total (get_stats_between ab1 u dt1 dt2)
     = total (get_stats_between ab2 u dt1 dt2)
  /\ (ab1 <= ab2 ->
      idle_for (get_stats_between ab2 u dt1 dt2)
      <= idle_for (get_stats_between ab1 u dt1 dt2)).
Proof.
  unfold get_stats_between, compute_window.
  destruct (scan_break_independent
              dt1 dt2 ab1 ab2 (query_sessions u dt1 dt2)
              (get_default_stats_template, dt1)
              (get_default_stats_template, dt1)
              eq_refl eq_refl eq_refl eq_refl) as (Hl & He & Ht).
  repeat split; try assumption.
  intros Hab. rewrite !scan_idle_for.
  pose proof (idle_gaps_antitone dt1 dt2 ab1 ab2
                (query_sessions u dt1 dt2) Hab dt1). lia.
Qed.

(** The theorem at breaks of 5 and of 60 minutes, for the session that
    starts half an hour into the window. *)
Lemma allowed_break_only_idle_witness :
  idle_for (get_stats_between (minutes 60) (user_with [session_late])
                              (clock 10 0 0) (clock 11 0 0))
  <= idle_for (get_stats_between (minutes 5) (user_with [session_late])
                                 (clock 10 0 0) (clock 11 0 0)).
Proof.
  refine (proj2 (proj2 (proj2 (allowed_break_only_idle
                                 (minutes 5) (minutes 60)
                                 (user_with [session_late])
                                 (clock 10 0 0) (clock 11 0 0)))) _).
  vm_compute. discriminate.
Defined.

(** ** The buckets as sums *)

Section BucketSums.

Variable allowed_break : timedelta.
Variables dt1 dt2 : datetime.

Lemma sum_values_empty : sum_values ∅ = 0.
Proof. unfold sum_values. apply map_fold_empty. Qed.

Lemma sum_values_insert_fresh (k : string) (v : Z) (d : gmap string Z) :
  d !! k = None -> sum_values (<[k := v]> d) = v + sum_values d.
Proof.
  intros Hfresh. unfold sum_values.
  apply (map_fold_insert_L (fun _ v acc => v + acc)); [|exact Hfresh].
  intros. lia.
Qed.

Lemma sum_values_delete (k : string) (v : Z) (d : gmap string Z) :
  d !! k = Some v -> sum_values d = v + sum_values (delete k d).
Proof.
  intros Hk. unfold sum_values.
  apply (map_fold_delete_L (fun _ v acc => v + acc)); [|exact Hk].
  intros. lia.
Qed.

Lemma sum_values_bucket_add (k : string) (v : Z) (d : gmap string Z) :
  sum_values (bucket_add k v d) = sum_values d + v.
Proof.
  unfold bucket_add, bucket. destruct (d !! k) as [w|] eqn:E; simpl.
  - rewrite <- insert_delete_eq.
    rewrite sum_values_insert_fresh by apply lookup_delete_eq.
    rewrite (sum_values_delete k w d E). lia.
  - rewrite sum_values_insert_fresh by exact E. lia.
Qed.

(** The minutes of the sessions that carry the key [k]. *)
Lemma scan_language_bucket (k : string) (sessions : list CodingSession) :
  forall st,
    bucket (languages (fst (scan allowed_break dt1 dt2 sessions st))) k
    = bucket (languages (fst st)) k
      + sum_over (fun s => if String.eqb (language s) k
                           then session_minutes dt1 dt2 s else 0) sessions.
Proof.
  induction sessions as [|s rest IH]; intros [stats last]; simpl; [lia|].
  rewrite IH. simpl. unfold session_minutes.
  destruct (String.eqb_spec (language s) k) as [-> | Hne].
  - rewrite bucket_add_same. lia.
  - rewrite bucket_add_other by exact Hne. lia.
Qed.

Lemma scan_editor_bucket (k : string) (sessions : list CodingSession) :
  forall st,
    bucket (editors (fst (scan allowed_break dt1 dt2 sessions st))) k
    = bucket (editors (fst st)) k
      + sum_over (fun s => if String.eqb (editor s) k
                           then session_minutes dt1 dt2 s else 0) sessions.
Proof.
  induction sessions as [|s rest IH]; intros [stats last]; simpl; [lia|].
  rewrite IH. simpl. unfold session_minutes.
  destruct (String.eqb_spec (editor s) k) as [-> | Hne].
  - rewrite bucket_add_same. lia.
  - rewrite bucket_add_other by exact Hne. lia.
Qed.

Lemma scan_bucket_sums (sessions : list CodingSession) :
  forall st,
    sum_values (languages (fst (scan allowed_break dt1 dt2 sessions st)))
    = sum_values (languages (fst st))
      + sum_over (session_minutes dt1 dt2) sessions
    /\ sum_values (editors (fst (scan allowed_break dt1 dt2 sessions st)))
       = sum_values (editors (fst st))
         + sum_over (session_minutes dt1 dt2) sessions.
Proof.
  induction sessions as [|s rest IH]; intros [stats last]; simpl.
  - split; lia.
  - destruct (IH (scan_step allowed_break dt1 dt2 (stats, last) s))
      as [Hl He].
    simpl in Hl, He. rewrite Hl, He, !sum_values_bucket_add.
    unfold session_minutes. split; lia.
Qed.

End BucketSums.

(** X5. In the summary of a window, the bucket of a language is the sum
    of the minutes of the fetched sessions with that language, and the
    bucket of an editor the sum over the fetched sessions with that
    editor, each session counted in full whatever it overlaps. *)
Theorem buckets_are_sums
        (allowed_break : timedelta) (u : User) (dt1 dt2 : datetime)
        (k : string) :
  bucket (languages (get_stats_between allowed_break u dt1 dt2)) k
  = sum_over (fun s => if String.eqb (language s) k
                       then session_minutes dt1 dt2 s else 0)
             (query_sessions u dt1 dt2)
  /\ bucket (editors (get_stats_between allowed_break u dt1 dt2)) k
     = sum_over (fun s => if String.eqb (editor s) k
                          then session_minutes dt1 dt2 s else 0)
                (query_sessions u dt1 dt2).
Proof.
  unfold get_stats_between, compute_window.
  rewrite scan_language_bucket, scan_editor_bucket. simpl.
  rewrite !bucket_empty. split; lia.
Qed.

(** X6. The minutes of all languages and the minutes of all editors of a
    summary add up to the same figure: the sum of the minutes of the
    fetched sessions. *)
Theorem languages_and_editors_agree
        (allowed_break : timedelta) (u : User) (dt1 dt2 : datetime) :
  sum_values (languages (get_stats_between allowed_break u dt1 dt2))
  = sum_over (session_minutes dt1 dt2) (query_sessions u dt1 dt2)
  /\ sum_values (editors (get_stats_between allowed_break u dt1 dt2))
     = sum_over (session_minutes dt1 dt2) (query_sessions u dt1 dt2).
Proof.
  unfold get_stats_between, compute_window.
  destruct (scan_bucket_sums allowed_break dt1 dt2 (query_sessions u dt1 dt2)
                             (get_default_stats_template, dt1)) as [Hl He].
  rewrite Hl, He. simpl. rewrite sum_values_empty. split; lia.
Qed.

(** ** A day at most per session *)

Section DayCap.

Variable allowed_break : timedelta.
Variables dt1 dt2 : datetime.

Lemma py_round_div_seconds_le (td : timedelta) :
  py_round_div (td_seconds td) 60 <= 1440.
Proof.
  pose proof (td_seconds_range td) as Hr. unfold seconds_per_day in Hr.
  pose proof (py_round_div_nearest (td_seconds td)). lia.
Qed.

Lemma duration_le_day (l r : datetime) : duration l r <= 1440.
Proof. apply py_round_div_seconds_le. Qed.

Lemma idle_contribution_le_day (last_on_left l : datetime) :
  idle_contribution allowed_break last_on_left l <= 1440.
Proof.
  unfold idle_contribution.
  destruct (allowed_break <? l - last_on_left); [|lia].
  apply py_round_div_seconds_le.
Qed.

(** One iteration never lowers the total and raises it by 1440 at
    most. *)
Lemma next_total_range (tot : Z) (last_on_left l r : datetime) :
  tot <= next_total tot last_on_left l r <= tot + 1440.
Proof.
  unfold next_total.
  pose proof (td_seconds_range
                (Z.max r last_on_left - Z.max l last_on_left + seconds 30))
    as Hr.
  unfold seconds_per_day in Hr.
  pose proof (py_round_div_nearest
                (60 * tot
                 + td_seconds (Z.max r last_on_left - Z.max l last_on_left
                               + seconds 30))).
  lia.
Qed.

Lemma scan_total_range (sessions : list CodingSession) :
  forall st,
    total (fst st)
    <= total (fst (scan allowed_break dt1 dt2 sessions st))
    <= total (fst st) + 1440 * Z.of_nat (length sessions).
Proof.
  induction sessions as [|s rest IH]; intros [stats last].
  - simpl. lia.
  - rewrite scan_cons.
    specialize (IH (scan_step allowed_break dt1 dt2 (stats, last) s)).
    pose proof (next_total_range (total stats) last
                                 (left_end dt1 s) (right_end dt2 s)) as Hstep.
    change (total (fst (scan_step allowed_break dt1 dt2 (stats, last) s)))
      with (next_total (total stats) last (left_end dt1 s) (right_end dt2 s))
      in IH.
    change (total (fst (stats, last))) with (total stats).
    rewrite length_cons, Nat2Z.inj_succ. lia.
Qed.

Lemma idle_gaps_le_day (sessions : list CodingSession) :
  forall last_on_left,
    idle_gaps allowed_break dt1 dt2 last_on_left sessions
    <= 1440 * Z.of_nat (length sessions).
Proof.
  induction sessions as [|s rest IH]; intros last; simpl idle_gaps.
  - simpl. lia.
  - specialize (IH (Z.max (right_end dt2 s) last)).
    pose proof (idle_contribution_le_day last (left_end dt1 s)).
    rewrite length_cons, Nat2Z.inj_succ. lia.
Qed.

Lemma sum_over_le_day (f : CodingSession -> Z) (sessions : list CodingSession) :
  (forall s, f s <= 1440) ->
  sum_over f sessions <= 1440 * Z.of_nat (length sessions).
Proof.
  intros Hf. induction sessions as [|s rest IH]; simpl sum_over.
  - simpl. lia.
  - specialize (Hf s). rewrite length_cons, Nat2Z.inj_succ. lia.
Qed.

End DayCap.

(** X7. No session, however long, and no gap, however long, counts for
    more than 1440 minutes: with n sessions fetched for the window, the
    total, the idle time and every language and editor bucket of the
    summary are at most 1440 * n. *)
Theorem summary_at_most_a_day_per_session
        (allowed_break : timedelta) (u : User) (dt1 dt2 : datetime)
        (k : string) :
  total (get_stats_between allowed_break u dt1 dt2)
  <= 1440 * Z.of_nat (length (query_sessions u dt1 dt2))
  /\ idle_for (get_stats_between allowed_break u dt1 dt2)
     <= 1440 * Z.of_nat (length (query_sessions u dt1 dt2))
  /\ bucket (languages (get_stats_between allowed_break u dt1 dt2)) k
     <= 1440 * Z.of_nat (length (query_sessions u dt1 dt2))
  /\ bucket (editors (get_stats_between allowed_break u dt1 dt2)) k
     <= 1440 * Z.of_nat (length (query_sessions u dt1 dt2)).
Proof.
  unfold get_stats_between, compute_window. repeat split.
  - pose proof (scan_total_range allowed_break dt1 dt2
                  (query_sessions u dt1 dt2)
                  (get_default_stats_template, dt1)) as H.
    simpl in H. lia.
  - rewrite scan_idle_for. simpl.
    apply (idle_gaps_le_day allowed_break dt1 dt2).
  - rewrite scan_language_bucket. simpl. rewrite bucket_empty. simpl.
    apply sum_over_le_day. intros s.
    destruct (String.eqb (language s) k); [apply duration_le_day | lia].
  - rewrite scan_editor_bucket. simpl. rewrite bucket_empty. simpl.
    apply sum_over_le_day. intros s.
    destruct (String.eqb (editor s) k); [apply duration_le_day | lia].
Qed.

(** ** A session that fills the day *)

Section FullDay.

Variable allowed_break : timedelta.

Lemma datetime_of_day_length (d : date) :
  datetime_of d 23 59 59 - datetime_of d 0 0 0 = seconds 86399.
Proof.
  unfold datetime_of, hours, minutes, seconds. lia.
Qed.

(** In a window of 23:59:59, a single session that covers the window
    has a clipped length of 86399 seconds; with the half minute that is
    a day and 29 seconds, of which the seconds field keeps 29. *)
Lemma get_stats_between_full_window (u : User) (s : CodingSession)
      (dt1 : datetime) :
  coding_sessions u = [s] ->
  started_at s <= dt1 ->
  dt1 + seconds 86399 <= last_heartbeat_at s ->
  total (get_stats_between allowed_break u dt1 (dt1 + seconds 86399)) = 0
  /\ bucket (languages (get_stats_between allowed_break u dt1
                                          (dt1 + seconds 86399)))
            (language s) = 0
  /\ bucket (editors (get_stats_between allowed_break u dt1
                                        (dt1 + seconds 86399)))
            (editor s) = 0.
Proof.
  intros Hu Hstart Hend.
  assert (Hpos : 0 < seconds 86399) by (unfold seconds, us_per_second; lia).
  unfold get_stats_between, query_sessions. rewrite Hu. simpl List.filter.
  unfold in_window.
  replace (dt1 <? last_heartbeat_at s) with true
    by (symmetry; apply Z.ltb_lt; lia).
  replace (started_at s <? dt1 + seconds 86399) with true
    by (symmetry; apply Z.ltb_lt; lia).
  simpl. unfold next_total, duration, left_end, right_end.
  rewrite !bucket_add_same, bucket_empty.
  rewrite (Z.max_r (started_at s) dt1) by lia.
  rewrite (Z.min_r (last_heartbeat_at s) (dt1 + seconds 86399)) by lia.
  rewrite (Z.max_l (dt1 + seconds 86399) dt1) by lia.
  rewrite Z.max_id.
  replace (dt1 + seconds 86399 - dt1 + seconds 30) with (seconds 86429)
    by (unfold seconds; lia).
  rewrite td_seconds_of_seconds.
  change (86429 mod seconds_per_day) with 29.
  repeat split.
Qed.

End FullDay.

(** X8. A session that covers the whole day counts for nothing on that
    day.  For a user whose time zone has the same UTC offset at 00:00:00
    and at 23:59:59 of the date, and whose only session (its two columns
    hold datetimes) starts at or before the local midnight and has its
    last heartbeat at or after 23:59:59, [get_stats_by_date] (cache not
    used) returns a summary with total 0 and with 0 in the session's
    language and editor buckets. *)
Theorem full_day_session_counts_nothing
        (allowed_break : timedelta) (zoneinfo : string -> option tzinfo)
        (stats_date : date) (u : User) (s : CodingSession)
        (user_tz utc_tz : tzinfo) :
  zoneinfo (timezone_or_utc (timezone u)) = Some user_tz ->
  zoneinfo "UTC"%string = Some utc_tz ->
  user_tz (datetime_of stats_date 0 0 0)
  = user_tz (datetime_of stats_date 23 59 59) ->
  coding_sessions u = [s] ->
  valid_datetime (started_at s) ->
  valid_datetime (last_heartbeat_at s) ->
  started_at s <= astimezone_utc user_tz (datetime_of stats_date 0 0 0) ->
  astimezone_utc user_tz (datetime_of stats_date 23 59 59)
  <= last_heartbeat_at s ->
  exists r,
    fst (get_stats_by_date allowed_break zoneinfo stats_date false u)
    = Return r
    /\ total r = 0
    /\ bucket (languages r) (language s) = 0
    /\ bucket (editors r) (editor s) = 0.
Proof.
  intros Htz Hutc Hoff Hu Hvstart Hvend Hstart Hend.
  assert (Hwin : astimezone_utc user_tz (datetime_of stats_date 23 59 59)
                 = astimezone_utc user_tz (datetime_of stats_date 0 0 0)
                   + seconds 86399).
  { unfold astimezone_utc. rewrite <- Hoff.
    pose proof (datetime_of_day_length stats_date). lia. }
  assert (Hpos : 0 < seconds 86399) by (unfold seconds, us_per_second; lia).
  rewrite Hwin in *.
  assert (Hv1 : valid_datetimeb
                  (astimezone_utc user_tz (datetime_of stats_date 0 0 0))
                = true)
    by (apply valid_datetimeb_true; unfold valid_datetime in *; lia).
  assert (Hv2 : valid_datetimeb
                  (astimezone_utc user_tz (datetime_of stats_date 0 0 0)
                   + seconds 86399)
                = true)
    by (apply valid_datetimeb_true; unfold valid_datetime in *; lia).
  rewrite get_stats_by_date_miss, Htz, Hutc, Hwin, Hv1, Hv2. simpl.
  eexists. split; [reflexivity|].
  now apply get_stats_between_full_window.
Qed.

(** The theorem at 2023-01-15 for a user without a time zone and a
    session from 23:00 of the day before to 00:59:59 of the day after. *)
Lemma full_day_session_counts_nothing_witness :
  exists r,
    fst (get_stats_by_date (minutes 5) example_zoneinfo example_day false
                           (user_with [session_all_day]))
    = Return r
    /\ total r = 0
    /\ bucket (languages r) (language session_all_day) = 0
    /\ bucket (editors r) (editor session_all_day) = 0.
Proof.
  apply (full_day_session_counts_nothing
           (minutes 5) example_zoneinfo example_day
           (user_with [session_all_day]) session_all_day
           (fun _ => 0) (fun _ => 0)).
  - reflexivity.
  - reflexivity.
  - reflexivity.
  - reflexivity.
  - vm_compute. split; discriminate.
  - vm_compute. split; discriminate.
  - vm_compute. discriminate.
  - vm_compute. discriminate.
Defined.

(** ** The total and the covered time *)

Section Cover.

Variable allowed_break : timedelta.
Variables dt1 dt2 : datetime.

(** A session that does not end before it starts adds a length between
    nothing and its own. *)
Lemma fresh_cover_range (last_on_left l r : datetime) :
  l <= r -> 0 <= fresh_cover last_on_left l r <= r - l.
Proof. unfold fresh_cover. lia. Qed.

(** With a new length below a day minus half a minute, one iteration
    moves sixty times the total by the whole seconds of that length, and
    by up to a minute more. *)
Lemma next_total_cover (tot : Z) (last_on_left l r : datetime) :
  0 <= fresh_cover last_on_left l r < seconds 86370 ->
  60 * tot + fresh_cover last_on_left l r / us_per_second
  <= 60 * next_total tot last_on_left l r
  <= 60 * tot + fresh_cover last_on_left l r / us_per_second + 60.
Proof.
  intros Hfresh. unfold next_total. fold (fresh_cover last_on_left l r).
  rewrite td_seconds_small
    by (unfold days, seconds, seconds_per_day, us_per_second in *; lia).
  replace ((fresh_cover last_on_left l r + seconds 30) / us_per_second)
    with (fresh_cover last_on_left l r / us_per_second + 30)
    by (unfold seconds, us_per_second; symmetry; apply Z.div_add; lia).
  pose proof (py_round_div_nearest
                (60 * tot + (fresh_cover last_on_left l r / us_per_second + 30))).
  lia.
Qed.

Lemma scan_total_cover (sessions : list CodingSession) :
  (forall s, In s sessions ->
             0 <= right_end dt2 s - left_end dt1 s < seconds 86370) ->
  forall stats last_on_left,
    60 * total stats + covered_seconds dt1 dt2 last_on_left sessions
    <= 60 * total (fst (scan allowed_break dt1 dt2 sessions
                             (stats, last_on_left)))
    <= 60 * total stats + covered_seconds dt1 dt2 last_on_left sessions
       + 60 * Z.of_nat (length sessions).
Proof.
  induction sessions as [|s rest IH]; intros Hall stats last.
  - simpl. lia.
  - rewrite scan_cons.
    assert (Hrest : forall x, In x rest ->
                      0 <= right_end dt2 x - left_end dt1 x < seconds 86370)
      by (intros x Hx; apply Hall; now right).
    assert (Htot : total (fst (scan_step allowed_break dt1 dt2 (stats, last) s))
                   = next_total (total stats) last
                                (left_end dt1 s) (right_end dt2 s))
      by reflexivity.
    assert (Hedge : snd (scan_step allowed_break dt1 dt2 (stats, last) s)
                    = Z.max (right_end dt2 s) last)
      by reflexivity.
    destruct (scan_step allowed_break dt1 dt2 (stats, last) s)
      as [stats' last'].
    simpl in Htot, Hedge. subst last'.
    specialize (IH Hrest stats' (Z.max (right_end dt2 s) last)).
    rewrite Htot in IH.
    assert (Hs : 0 <= right_end dt2 s - left_end dt1 s < seconds 86370)
      by (apply Hall; now left).
    pose proof (fresh_cover_range last (left_end dt1 s) (right_end dt2 s)
                                  ltac:(lia)) as Hfresh.
    pose proof (next_total_cover (total stats) last
                                 (left_end dt1 s) (right_end dt2 s)
                                 ltac:(lia)) as Hstep.
    simpl covered_seconds. rewrite length_cons, Nat2Z.inj_succ. lia.
Qed.

(** The clipped interval of a fetched, well-formed session is not
    reversed and not longer than the session. *)
Lemma clipped_length_range (s : CodingSession) :
  dt1 <= dt2 ->
  started_at s <= last_heartbeat_at s ->
  dt1 < last_heartbeat_at s -> started_at s < dt2 ->
  0 <= right_end dt2 s - left_end dt1 s
  <= last_heartbeat_at s - started_at s.
Proof. unfold left_end, right_end. lia. Qed.

End Cover.

(** X9. When the window is not reversed and every session of the user
    ends no earlier than it starts and is shorter than 23:59:30, sixty
    times the total (the total in seconds) is at least the time the
    sessions cover, in whole seconds per newly covered stretch, and
    exceeds it by at most one minute per fetched session. *)
Theorem total_tracks_covered_time
        (allowed_break : timedelta) (u : User) (dt1 dt2 : datetime) :
  dt1 <= dt2 ->
  (forall s, In s (coding_sessions u) ->
             0 <= last_heartbeat_at s - started_at s < seconds 86370) ->
  covered_seconds dt1 dt2 dt1 (query_sessions u dt1 dt2)
  <= 60 * total (get_stats_between allowed_break u dt1 dt2)
  <= covered_seconds dt1 dt2 dt1 (query_sessions u dt1 dt2)
     + 60 * Z.of_nat (length (query_sessions u dt1 dt2)).
Proof.
  intros Hwin Hall. unfold get_stats_between, compute_window.
  pose proof (scan_total_cover allowed_break dt1 dt2
                               (query_sessions u dt1 dt2)) as Hscan.
  assert (Hq : forall s, In s (query_sessions u dt1 dt2) ->
                 0 <= right_end dt2 s - left_end dt1 s < seconds 86370).
  { intros s Hs.
    apply (proj2 (query_sessions_spec u dt1 dt2)) in Hs as (Hin & Hhb & Hst).
    specialize (Hall s Hin).
    pose proof (clipped_length_range dt1 dt2 s Hwin ltac:(lia) Hhb Hst).
    lia. }
  specialize (Hscan Hq get_default_stats_template dt1).
  change (total get_default_stats_template) with 0 in Hscan.
  unfold scan in *. lia.
Qed.

(** The theorem at the forty seconds with ten seconds inside them: 40
    seconds covered, a total of 2 minutes. *)
Lemma total_tracks_covered_time_witness :
  covered_seconds (clock 0 0 0) (clock 23 59 59) (clock 0 0 0)
                  (query_sessions (user_with [session_40s; session_inside_40s])
                                  (clock 0 0 0) (clock 23 59 59))
  <= 60 * total (get_stats_between
                   (minutes 5) (user_with [session_40s; session_inside_40s])
                   (clock 0 0 0) (clock 23 59 59))
  <= covered_seconds (clock 0 0 0) (clock 23 59 59) (clock 0 0 0)
                     (query_sessions
                        (user_with [session_40s; session_inside_40s])
                        (clock 0 0 0) (clock 23 59 59))
     + 60 * Z.of_nat (length (query_sessions
                                (user_with [session_40s; session_inside_40s])
                                (clock 0 0 0) (clock 23 59 59))).
Proof.
  apply (total_tracks_covered_time
           (minutes 5) (user_with [session_40s; session_inside_40s])
           (clock 0 0 0) (clock 23 59 59)).
  - vm_compute. discriminate.
  - intros s [<- | [<- | []]]; vm_compute; split; congruence.
Defined.

(** ** More on the range query *)

Section RangeMore.

Variable allowed_break : timedelta.
Variable zoneinfo : string -> option tzinfo.

(** The loop leaves the user record as it found it. *)
Lemma daywise_loop_user_after (fuel : nat) :
  forall current_date end_ stats u,
    snd (daywise_loop allowed_break zoneinfo fuel current_date end_ stats u)
    = u.
Proof.
  induction fuel as [|fuel IH]; intros cur end_ stats u.
  - simpl. now destruct (cur <=? end_).
  - rewrite daywise_loop_succ.
    destruct (cur <=? end_); [|reflexivity].
    unfold bind, date_add_day.
    destruct (cur + 1 <=? MAXORDINAL); [|reflexivity].
    unfold ret.
    pose proof (get_stats_by_date_user_after
                  allowed_break zoneinfo cur true u) as Hu.
    unfold user_after in Hu.
    destruct (get_stats_by_date allowed_break zoneinfo cur true u)
      as [[day_stats|e] u'].
    + simpl in Hu. subst u'. apply IH.
    + simpl in Hu. now subst u'.
Qed.

(** A range that reaches 9999-12-31 cannot finish: the day after the
    last day is computed before that day's statistics are stored. *)
Lemma daywise_loop_until_max (fuel : nat) :
  forall current_date end_ stats u,
    current_date <= end_ -> MAXORDINAL <= end_ ->
    end_ - current_date + 1 <= Z.of_nat fuel ->
    returned (daywise_loop allowed_break zoneinfo fuel current_date end_
                           stats u)
    = None.
Proof.
  induction fuel as [|fuel IH]; intros cur end_ stats u Hle Hmax Hfuel.
  - simpl in Hfuel. lia.
  - rewrite daywise_loop_succ.
    destruct (cur <=? end_) eqn:E; [|apply Z.leb_gt in E; lia].
    unfold bind, date_add_day.
    destruct (cur + 1 <=? MAXORDINAL) eqn:Enext; [|reflexivity].
    apply Z.leb_le in Enext. unfold ret.
    destruct (get_stats_by_date allowed_break zoneinfo cur true u)
      as [[day_stats|e] u']; [|reflexivity].
    apply IH; lia.
Qed.

End RangeMore.

(** X10. [daywise_stats] for a single day before 9999-12-31 (no end
    given) returns the mapping with one entry, the result of
    [get_stats_by_date] for that day under the day's "%d-%m-%Y" key; when
    [get_stats_by_date] raises, [daywise_stats] raises the same
    exception. *)
Theorem daywise_stats_single_day
        (allowed_break : timedelta) (zoneinfo : string -> option tzinfo)
        (day : date) (u : User) :
  day + 1 <= MAXORDINAL ->
  daywise_stats allowed_break zoneinfo day None u
  = match fst (get_stats_by_date allowed_break zoneinfo day true u) with
    | Return r => (Return {[strftime_dmY day := r]}, u)
    | Raise e => (Raise e, u)
    end.
Proof.
  intros Hday. unfold daywise_stats, days_between.
  rewrite Z.leb_refl.
  replace (Z.to_nat (day - day + 1)) with 1%nat by lia.
  rewrite daywise_loop_succ, Z.leb_refl.
  unfold bind, date_add_day.
  replace (day + 1 <=? MAXORDINAL) with true
    by (symmetry; now apply Z.leb_le).
  unfold ret.
  pose proof (get_stats_by_date_user_after
                allowed_break zoneinfo day true u) as Hu.
  unfold user_after in Hu.
  destruct (get_stats_by_date allowed_break zoneinfo day true u)
    as [[r|e] u']; simpl in Hu; subst u'; simpl.
  - replace (day + 1 <=? day) with false
      by (symmetry; apply Z.leb_gt; lia).
    rewrite insert_empty. reflexivity.
  - reflexivity.
Qed.

(** The theorem at 2023-01-15. *)
Lemma daywise_stats_single_day_witness :
  daywise_stats (minutes 5) example_zoneinfo example_day None
                (user_with [session_half_hour])
  = match fst (get_stats_by_date (minutes 5) example_zoneinfo example_day
                                 true (user_with [session_half_hour])) with
    | Return r =>
        (Return {[strftime_dmY example_day := r]},
         user_with [session_half_hour])
    | Raise e => (Raise e, user_with [session_half_hour])
    end.
Proof.
  apply (daywise_stats_single_day (minutes 5) example_zoneinfo example_day
                                  (user_with [session_half_hour])).
  vm_compute. discriminate.
Defined.

(** X11. A range that ends on 9999-12-31 or later never yields a
    mapping: [daywise_stats] raises, at the latest when it adds a day to
    9999-12-31 before storing that day's statistics. *)
Theorem daywise_stats_until_max_raises
        (allowed_break : timedelta) (zoneinfo : string -> option tzinfo)
        (start end_ : date) (u : User) :
  start <= end_ -> MAXORDINAL <= end_ ->
  returned (daywise_stats allowed_break zoneinfo start (Some end_) u) = None.
Proof.
  intros Hle Hmax. unfold daywise_stats, days_between.
  destruct (start <=? end_) eqn:E; [|apply Z.leb_gt in E; lia].
  apply daywise_loop_until_max; lia.
Qed.

(** The theorem at the range of the single day 9999-12-31. *)
Lemma daywise_stats_until_max_raises_witness :
  returned (daywise_stats (minutes 5) example_zoneinfo MAXORDINAL
                          (Some MAXORDINAL) (user_with []))
  = None.
Proof.
  apply (daywise_stats_until_max_raises
           (minutes 5) example_zoneinfo MAXORDINAL MAXORDINAL (user_with []));
    vm_compute; discriminate.
Defined.

(** X12. [daywise_stats] never changes the user record: whatever the
    range and whether it returns or raises, the statistics column, the
    time zone and the sessions are afterwards what they were. *)
Theorem daywise_stats_user_after
        (allowed_break : timedelta) (zoneinfo : string -> option tzinfo)
        (start : date) (end_ : option date) (u : User) :
  user_after (daywise_stats allowed_break zoneinfo start end_ u) = u.
Proof.
  unfold daywise_stats, user_after.
  destruct (start <=? _); [apply daywise_loop_user_after | reflexivity].
Qed.

(** ** The two key formats *)

Section Keys.

Lemma string_app_assoc (a b c : string) : (a +:+ b) +:+ c = a +:+ b +:+ c.
Proof.
  induction a as [|x a IH]; [reflexivity|].
  change (String x ((a +:+ b) +:+ c) = String x (a +:+ b +:+ c)).
  now f_equal.
Qed.

Lemma last_char_some (t : string) :
  t <> EmptyString -> exists c, last_char t = Some c.
Proof.
  destruct t as [|c t]; [congruence|]. intros _. simpl.
  destruct (last_char t); eauto.
Qed.

Lemma last_char_app (s t : string) :
  t <> EmptyString -> last_char (s +:+ t) = last_char t.
Proof.
  intros Ht. induction s as [|c s IH]; simpl; [reflexivity|].
  rewrite IH. destruct (last_char_some t Ht) as [c' ->]. reflexivity.
Qed.

(** The digits are written from the right: the last one is that of the
    number itself. *)
Lemma decimal_go_suffix (fuel : nat) :
  forall n acc, exists p, decimal_go fuel n acc = p +:+ String (digit n) acc.
Proof.
  induction fuel as [|fuel IH]; intros n acc; simpl.
  - now exists EmptyString.
  - destruct (n <? 10); [now exists EmptyString|].
    destruct (IH (n / 10) (String (digit n) acc)) as [p ->].
    exists (p +:+ String (digit (n / 10)) EmptyString).
    now rewrite string_app_assoc.
Qed.

Lemma decimal_suffix (n : Z) :
  exists p m, decimal n = p +:+ String (digit m) EmptyString.
Proof.
  unfold decimal. destruct (n <? 0).
  - destruct (decimal_go_suffix (Z.to_nat (Z.log2 (- n))) (- n) EmptyString)
      as [p ->].
    now exists (String "-" p), (- n).
  - destruct (decimal_go_suffix (Z.to_nat (Z.log2 n)) n EmptyString)
      as [p ->].
    now exists p, n.
Qed.

Lemma zero_pad_suffix (w : nat) (s : string) :
  exists p, zero_pad w s = p +:+ s.
Proof.
  induction w as [|w IH]; simpl.
  - exists EmptyString. now destruct (0 - String.length s)%nat.
  - destruct (S w - String.length s)%nat; [now exists EmptyString|].
    destruct IH as [p ->]. now exists (String "0" p).
Qed.

Lemma decimal_padded_suffix (w : nat) (n : Z) :
  exists p m, decimal_padded w n = p +:+ String (digit m) EmptyString.
Proof.
  unfold decimal_padded.
  destruct (decimal_suffix n) as (p & m & ->).
  destruct (zero_pad_suffix w (p +:+ String (digit m) EmptyString)) as [q ->].
  exists (q +:+ p), m. now rewrite string_app_assoc.
Qed.

(** A "%d-%m-%Y" key ends in a digit. *)
Lemma strftime_dmY_last (d : date) :
  exists m, last_char (strftime_dmY d) = Some (digit m).
Proof.
  unfold strftime_dmY.
  destruct (decimal_padded_suffix 4 (year_of d)) as (p & m & ->).
  exists m.
  rewrite <- !string_app_assoc.
  now rewrite last_char_app by discriminate.
Qed.

Lemma digit_is_no_letter (m : Z) : digit m <> "Y"%char.
Proof.
  unfold digit. intros H.
  apply (f_equal N_of_ascii) in H.
  pose proof (Z.mod_pos_bound m 10 ltac:(lia)) as Hm.
  rewrite N_ascii_embedding in H by lia.
  change (N_of_ascii "Y") with 89%N in H. lia.
Qed.

(** The key that [get_stats_by_date] looks up is never a "%d-%m-%Y"
    key. *)
Lemma strftime_keys_differ (d d' : date) :
  strftime_dmYYYY d <> strftime_dmY d'.
Proof.
  intros Heq. apply (f_equal last_char) in Heq.
  unfold strftime_dmYYYY in Heq.
  rewrite last_char_app in Heq by discriminate.
  destruct (strftime_dmY_last d') as [m Hm]. rewrite Hm in Heq.
  simpl in Heq. injection Heq as Heq.
  now apply (digit_is_no_letter m).
Qed.

Variable allowed_break : timedelta.
Variable zoneinfo : string -> option tzinfo.

(** Every key of the mapping that the loop builds is a "%d-%m-%Y"
    key. *)
Lemma daywise_loop_keys (fuel : nat) :
  forall current_date end_ stats u m,
    (forall k, is_Some (stats !! k) -> exists d, k = strftime_dmY d) ->
    returned (daywise_loop allowed_break zoneinfo fuel current_date end_
                           stats u)
    = Some m ->
    forall k, is_Some (m !! k) -> exists d, k = strftime_dmY d.
Proof.
  induction fuel as [|fuel IH]; intros cur end_ stats u m Hkeys.
  - simpl. destruct (cur <=? end_); intros [= <-]; exact Hkeys.
  - rewrite daywise_loop_succ.
    destruct (cur <=? end_); [|intros [= <-]; exact Hkeys].
    unfold bind, date_add_day.
    destruct (cur + 1 <=? MAXORDINAL); [|discriminate].
    unfold ret.
    destruct (get_stats_by_date allowed_break zoneinfo cur true u)
      as [[day_stats|e] u']; [|discriminate].
    apply IH. intros k Hk.
    destruct (decide (strftime_dmY cur = k)) as [<- | Hne]; [now exists cur|].
    rewrite lookup_insert_ne in Hk by exact Hne. now apply Hkeys.
Qed.

End Keys.

(** X13. The mapping that [daywise_stats] returns cannot serve as the
    per-day cache: its keys are "%d-%m-%Y" strings, while
    [get_stats_by_date] looks a day up under the "%d-%m-%YYYY" string,
    which ends in the letters YYY.  With that mapping as the user's
    [statistics], [get_stats_by_date] with the cache on does for every
    date what it does with the cache off. *)
Theorem daywise_mapping_is_no_cache
        (allowed_break : timedelta) (zoneinfo : string -> option tzinfo)
        (start : date) (end_ : option date) (u : User)
        (m : gmap string Stats) (stats_date : date) :
  returned (daywise_stats allowed_break zoneinfo start end_ u) = Some m ->
  get_stats_by_date allowed_break zoneinfo stats_date true
                    (with_statistics m u)
  = get_stats_by_date allowed_break zoneinfo stats_date false
                      (with_statistics m u).
Proof.
  intros Hm.
  assert (Hkeys : forall k, is_Some (m !! k) -> exists d, k = strftime_dmY d).
  { unfold daywise_stats in Hm.
    destruct (start <=? _); [|discriminate].
    eapply daywise_loop_keys; [|exact Hm].
    intros k Hk. rewrite lookup_empty in Hk. now destruct Hk. }
  assert (Hmiss : m !! strftime_dmYYYY stats_date = None).
  { destruct (m !! strftime_dmYYYY stats_date) as [cached|] eqn:E;
      [|reflexivity].
    destruct (Hkeys (strftime_dmYYYY stats_date)) as [d Hd].
    - rewrite E. now exists cached.
    - now apply strftime_keys_differ in Hd. }
  rewrite (get_stats_by_date_cases allowed_break zoneinfo stats_date true
                                   (with_statistics m u)).
  change (statistics (with_statistics m u)) with (Some m).
  cbv beta iota. now rewrite Hmiss.
Qed.

(** The theorem at the mapping for 2023-01-15 and the day after. *)
Lemma daywise_mapping_is_no_cache_witness :
  exists m,
    returned (daywise_stats (minutes 5) example_zoneinfo example_day
                            (Some (example_day + 1))
                            (user_with [session_half_hour]))
    = Some m
    /\ get_stats_by_date (minutes 5) example_zoneinfo example_day true
                         (with_statistics m (user_with [session_half_hour]))
       = get_stats_by_date (minutes 5) example_zoneinfo example_day false
                           (with_statistics m (user_with [session_half_hour])).
Proof.
  eexists. split; [vm_compute; reflexivity|].
  apply (daywise_mapping_is_no_cache
           (minutes 5) example_zoneinfo example_day (Some (example_day + 1))
           (user_with [session_half_hour])).
  vm_compute. reflexivity.
Defined.

(** ** The last second of the day *)

(** A row outside the window does not change the summary. *)
Lemma get_stats_between_add_outside
      (allowed_break : timedelta) (u : User) (s : CodingSession)
      (dt1 dt2 : datetime) :
  last_heartbeat_at s <= dt1 \/ dt2 <= started_at s ->
  get_stats_between allowed_break (add_session s u) dt1 dt2
  = get_stats_between allowed_break u dt1 dt2.
Proof.
  intros Hout. unfold get_stats_between, query_sessions. simpl.
  replace (in_window dt1 dt2 s) with false; [reflexivity|].
  symmetry. unfold in_window. apply andb_false_iff.
  destruct Hout as [H | H]; [left | right]; apply Z.ltb_ge; exact H.
Qed.

(** A row outside the day's window does not change what
    [get_stats_by_date] gives for the day. *)
Lemma get_stats_by_date_add_outside
      (allowed_break : timedelta) (zoneinfo : string -> option tzinfo)
      (stats_date : date) (use_cache : bool) (u : User) (s : CodingSession) :
  (forall user_tz,
      zoneinfo (timezone_or_utc (timezone u)) = Some user_tz ->
      last_heartbeat_at s
      <= astimezone_utc user_tz (datetime_of stats_date 0 0 0)
      \/ astimezone_utc user_tz (datetime_of stats_date 23 59 59)
         <= started_at s) ->
  fst (get_stats_by_date allowed_break zoneinfo stats_date use_cache
                         (add_session s u))
  = fst (get_stats_by_date allowed_break zoneinfo stats_date use_cache u).
Proof.
  intros Hout.
  assert (Hoff : fst (get_stats_by_date allowed_break zoneinfo stats_date
                                        false (add_session s u))
                 = fst (get_stats_by_date allowed_break zoneinfo stats_date
                                          false u)).
  { rewrite !get_stats_by_date_miss. simpl.
    destruct (zoneinfo (timezone_or_utc (timezone u))) as [user_tz|] eqn:Etz;
      [|reflexivity].
    specialize (Hout user_tz eq_refl).
    destruct (zoneinfo "UTC"); [|reflexivity].
    destruct (valid_datetimeb _); [|reflexivity].
    destruct (valid_datetimeb _); [|reflexivity].
    simpl. f_equal. now apply get_stats_between_add_outside. }
  destruct use_cache; [|exact Hoff].
  rewrite (get_stats_by_date_cases allowed_break zoneinfo stats_date true u).
  rewrite (get_stats_by_date_cases allowed_break zoneinfo stats_date true
                                   (add_session s u)).
  simpl. destruct (statistics u) as [cache|]; [|reflexivity].
  destruct (cache !! strftime_dmYYYY stats_date); [reflexivity | exact Hoff].
Qed.

(** X14. Activity in the last second of a local day is in no day's
    statistics.  When a session starts at or after 23:59:59 of a date
    and has its last heartbeat at or before 00:00:00 of the next date
    (both in the user's time zone), [get_stats_by_date] returns for the
    date and for the next date what it returns without that session. *)
Theorem last_second_in_no_day
        (allowed_break : timedelta) (zoneinfo : string -> option tzinfo)
        (stats_date : date) (use_cache : bool) (u : User)
        (s : CodingSession) :
  (forall user_tz,
      zoneinfo (timezone_or_utc (timezone u)) = Some user_tz ->
      astimezone_utc user_tz (datetime_of stats_date 23 59 59)
      <= started_at s
      /\ last_heartbeat_at s
         <= astimezone_utc user_tz (datetime_of (stats_date + 1) 0 0 0)) ->
  fst (get_stats_by_date allowed_break zoneinfo stats_date use_cache
                         (add_session s u))
  = fst (get_stats_by_date allowed_break zoneinfo stats_date use_cache u)
  /\ fst (get_stats_by_date allowed_break zoneinfo (stats_date + 1) use_cache
                            (add_session s u))
     = fst (get_stats_by_date allowed_break zoneinfo (stats_date + 1)
                              use_cache u).
Proof.
  intros Hs. split; apply get_stats_by_date_add_outside;
    intros user_tz Htz; destruct (Hs user_tz Htz) as [Hstart Hend];
    [right | left]; assumption.
Qed.

(** The theorem at the session from 23:59:59 to midnight of 2023-01-15,
    for a user without other sessions and without a time zone. *)
Lemma last_second_in_no_day_witness :
  fst (get_stats_by_date (minutes 5) example_zoneinfo example_day true
                         (add_session session_last_second (user_with [])))
  = fst (get_stats_by_date (minutes 5) example_zoneinfo example_day true
                           (user_with []))
  /\ fst (get_stats_by_date (minutes 5) example_zoneinfo (example_day + 1)
                            true
                            (add_session session_last_second (user_with [])))
     = fst (get_stats_by_date (minutes 5) example_zoneinfo (example_day + 1)
                              true (user_with [])).
Proof.
  apply (last_second_in_no_day (minutes 5) example_zoneinfo example_day true
                               (user_with []) session_last_second).
  intros user_tz [= <-]. split; vm_compute; discriminate.
Defined.

(** ** The buckets and the order of the table *)

Section TableOrder.

Lemma sum_over_perm (f : CodingSession -> Z) (l l' : list CodingSession) :
  l ≡ₚ l' -> sum_over f l = sum_over f l'.
Proof.
  induction 1 as [|x l l' _ IH|x y l|l l' l'' _ IH1 _ IH2]; simpl.
  - reflexivity.
  - now rewrite IH.
  - lia.
  - now rewrite IH1.
Qed.

Lemma sum_over_filter (f : CodingSession -> Z) (g : CodingSession -> bool)
      (l : list CodingSession) :
  sum_over f (List.filter g l) = sum_over (fun s => if g s then f s else 0) l.
Proof.
  induction l as [|x l IH]; simpl; [reflexivity|].
  destruct (g x); simpl; rewrite IH; reflexivity.
Qed.

(** Summing over the fetched sessions is summing over the rows of the
    table that reach into the window. *)
Lemma sum_over_query (f : CodingSession -> Z) (u : User) (dt1 dt2 : datetime) :
  sum_over f (query_sessions u dt1 dt2)
  = sum_over (fun s => if in_window dt1 dt2 s then f s else 0)
             (coding_sessions u).
Proof.
  unfold query_sessions.
  rewrite (sum_over_perm f _ _ (order_by_started_at_perm _)).
  apply sum_over_filter.
Qed.

End TableOrder.

(** X15. The language and editor buckets of a summary do not depend on
    the order of the rows in the session table (and so not on the order
    in which the database returns sessions with equal [started_at]): two
    users whose tables hold the same rows get the same bucket for every
    language and every editor. *)
Theorem buckets_ignore_table_order
        (allowed_break : timedelta) (u u' : User) (dt1 dt2 : datetime)
        (k : string) :
  coding_sessions u ≡ₚ coding_sessions u' ->
  bucket (languages (get_stats_between allowed_break u dt1 dt2)) k
  = bucket (languages (get_stats_between allowed_break u' dt1 dt2)) k
  /\ bucket (editors (get_stats_between allowed_break u dt1 dt2)) k
     = bucket (editors (get_stats_between allowed_break u' dt1 dt2)) k.
Proof.
  intros Hperm. unfold get_stats_between, compute_window.
  rewrite !scan_language_bucket, !scan_editor_bucket.
  rewrite !sum_over_query.
  split; f_equal; apply sum_over_perm; exact Hperm.
Qed.

(** The theorem at the half hour and the ten minutes inside it, in both
    table orders. *)
Lemma buckets_ignore_table_order_witness :
  bucket (languages
            (get_stats_between
               (minutes 5)
               (user_with [session_half_hour; session_inside_half_hour])
               (clock 0 0 0) (clock 23 59 59))) "Go"
  = bucket (languages
              (get_stats_between
                 (minutes 5)
                 (user_with [session_inside_half_hour; session_half_hour])
                 (clock 0 0 0) (clock 23 59 59))) "Go"
  /\ bucket (editors
               (get_stats_between
                  (minutes 5)
                  (user_with [session_half_hour; session_inside_half_hour])
                  (clock 0 0 0) (clock 23 59 59))) "Go"
     = bucket (editors
                 (get_stats_between
                    (minutes 5)
                    (user_with [session_inside_half_hour; session_half_hour])
                    (clock 0 0 0) (clock 23 59 59))) "Go".
Proof.
  apply (buckets_ignore_table_order
           (minutes 5)
           (user_with [session_half_hour; session_inside_half_hour])
           (user_with [session_inside_half_hour; session_half_hour])
           (clock 0 0 0) (clock 23 59 59) "Go").
  apply Permutation_swap.
Defined.

(** ** One session, and the time after the last one *)

(** X17. When exactly one session is fetched for a window that is not
    reversed, the total of the summary is the figure in that session's
    language bucket and in its editor bucket. *)
Theorem single_session_total
        (allowed_break : timedelta) (u : User) (dt1 dt2 : datetime)
        (s : CodingSession) :
  dt1 <= dt2 ->
  query_sessions u dt1 dt2 = [s] ->
  total (get_stats_between allowed_break u dt1 dt2)
  = bucket (languages (get_stats_between allowed_break u dt1 dt2))
           (language s)
  /\ total (get_stats_between allowed_break u dt1 dt2)
     = bucket (editors (get_stats_between allowed_break u dt1 dt2))
              (editor s).
Proof.
  intros Hwin Hq.
  assert (Hin : In s (query_sessions u dt1 dt2)) by (rewrite Hq; now left).
  apply (proj2 (query_sessions_spec u dt1 dt2)) in Hin as (_ & Hhb & Hst).
  unfold get_stats_between, compute_window. rewrite Hq. simpl.
  rewrite !bucket_add_same, bucket_empty.
  unfold next_total, duration, left_end, right_end.
  rewrite (Z.max_l (Z.min (last_heartbeat_at s) dt2) dt1) by lia.
  rewrite (Z.max_l (Z.max (started_at s) dt1) dt1) by lia.
  split; reflexivity.
Qed.

(** The theorem at the half-hour session in the window of its day. *)
Lemma single_session_total_witness :
  total (get_stats_between (minutes 5) (user_with [session_half_hour])
                           (clock 0 0 0) (clock 23 59 59))
  = bucket (languages
              (get_stats_between (minutes 5) (user_with [session_half_hour])
                                 (clock 0 0 0) (clock 23 59 59)))
           (language session_half_hour)
  /\ total (get_stats_between (minutes 5) (user_with [session_half_hour])
                              (clock 0 0 0) (clock 23 59 59))
     = bucket (editors
                 (get_stats_between (minutes 5) (user_with [session_half_hour])
                                    (clock 0 0 0) (clock 23 59 59)))
              (editor session_half_hour).
Proof.
  apply (single_session_total (minutes 5) (user_with [session_half_hour])
                              (clock 0 0 0) (clock 23 59 59)
                              session_half_hour).
  - vm_compute. discriminate.
  - reflexivity.
Defined.

Section AfterLast.

Variable allowed_break : timedelta.

Lemma filter_ext_in (f g : CodingSession -> bool) (l : list CodingSession) :
  (forall s, In s l -> f s = g s) -> List.filter f l = List.filter g l.
Proof.
  induction l as [|x l IH]; simpl; intros Hfg; [reflexivity|].
  rewrite (Hfg x) by now left.
  rewrite IH by (intros s Hs; apply Hfg; now right). reflexivity.
Qed.

(** Two window ends give the same scan when no session reaches beyond
    the earlier one. *)
Lemma scan_window_end (dt1 dt2 dt2' : datetime)
      (sessions : list CodingSession) :
  (forall s, In s sessions -> right_end dt2' s = right_end dt2 s) ->
  forall st,
    scan allowed_break dt1 dt2' sessions st
    = scan allowed_break dt1 dt2 sessions st.
Proof.
  induction sessions as [|s rest IH]; intros Hall [stats last];
    [reflexivity|].
  rewrite !scan_cons. unfold scan_step.
  rewrite (Hall s) by now left.
  apply IH. intros x Hx. apply Hall. now right.
Qed.

End AfterLast.

(** X18. The time between the last heartbeat and the end of the window
    counts for nothing: when every session of the user starts before
    [dt2] and has its last heartbeat at or before [dt2], a window that
    ends later than [dt2] gives the same summary, idle time included. *)
Theorem window_end_after_last_heartbeat
        (allowed_break : timedelta) (u : User) (dt1 dt2 dt2' : datetime) :
  dt2 <= dt2' ->
  (forall s, In s (coding_sessions u) ->
             started_at s < dt2 /\ last_heartbeat_at s <= dt2) ->
  get_stats_between allowed_break u dt1 dt2'
  = get_stats_between allowed_break u dt1 dt2.
Proof.
  intros Hlater Hall. unfold get_stats_between, compute_window, query_sessions.
  rewrite (filter_ext_in (in_window dt1 dt2') (in_window dt1 dt2)).
  - f_equal. apply scan_window_end. intros s Hs.
    apply order_by_started_at_In, filter_In in Hs as [Hs _].
    destruct (Hall s Hs) as [_ Hhb]. unfold right_end. lia.
  - intros s Hs. destruct (Hall s Hs) as [Hst _]. unfold in_window.
    f_equal. destruct (started_at s <? dt2') eqn:E1;
      destruct (started_at s <? dt2) eqn:E2; try reflexivity;
      try apply Z.ltb_lt in E1; try apply Z.ltb_ge in E1;
      try apply Z.ltb_lt in E2; try apply Z.ltb_ge in E2; lia.
Qed.

(** The theorem at the session from 10:30 to 10:40, for windows from
    10:00 to 11:00 and from 10:00 to 23:59:59. *)
Lemma window_end_after_last_heartbeat_witness :
  get_stats_between (minutes 5) (user_with [session_late])
                    (clock 10 0 0) (clock 23 59 59)
  = get_stats_between (minutes 5) (user_with [session_late])
                      (clock 10 0 0) (clock 11 0 0).
Proof.
  apply (window_end_after_last_heartbeat
           (minutes 5) (user_with [session_late])
           (clock 10 0 0) (clock 11 0 0) (clock 23 59 59)).
  - vm_compute. discriminate.
  - intros s [<- | []]. split; vm_compute; [reflexivity | discriminate].
Defined.
